(** * pipeline19.py: a three-stage luigi pipeline

    A shallow embedding of [src/pipeline19.py] and the properties its
    specification states about it.  The file follows the program:

    - Python string methods used by the program ([startswith], [endswith],
      [strip], [replace]) and [os.path] on POSIX;
    - exceptions and the two effect layers of the program: pure code that can
      raise ([result]) and code that also reads and writes the file system
      ([M]);
    - [SegmentTables._process_text_file]: the line-oriented section parser and
      the persistence of its tables;
    - [ExtractAndProcessData]: archive extraction and gzip members;
    - the stage graph ([requires], [output]) and the engine that runs it. *)

From Stdlib Require Import Ascii String.
From stdpp Require Import base option list sorting gmap strings.

Local Open Scope stdpp_scope.

(** ** Characters and Python string methods *)

Module Py.

Definition LF : ascii := Eval cbv in ascii_of_nat 10.
Definition TAB : ascii := Eval cbv in ascii_of_nat 9.

(** A one-character string. *)
Definition chr (a : ascii) : string := String a "".

(** [a in chars], for a character [a]. *)
Fixpoint char_in (a : ascii) (chars : string) : bool :=
  match chars with
  | "" => false
  | String c chars' => if decide (a = c) then true else char_in a chars'
  end.

(** [s.startswith(p)]. *)
Fixpoint startswith (p s : string) : bool :=
  match p, s with
  | "", _ => true
  | String _ _, "" => false
  | String a p', String b s' => if decide (a = b) then startswith p' s' else false
  end.

(** [s.endswith(p)]: some suffix of [s] is [p]. *)
Fixpoint endswith (p s : string) : bool :=
  if decide (s = p) then true
  else match s with
       | "" => false
       | String _ s' => endswith p s'
       end.

(** [s.lstrip(chars)]. *)
Fixpoint lstrip (chars s : string) : string :=
  match s with
  | "" => ""
  | String a s' => if char_in a chars then lstrip chars s' else s
  end.

(** [s.rstrip(chars)]. *)
Fixpoint rstrip (chars s : string) : string :=
  match s with
  | "" => ""
  | String a s' =>
      match rstrip chars s' with
      | "" => if char_in a chars then "" else chr a
      | r => String a r
      end
  end.

(** [s.strip(chars)]: both ends. *)
Definition strip (chars s : string) : string := rstrip chars (lstrip chars s).

(** [s.replace(old, new)] for a non-empty [old]: occurrences are replaced
    from left to right and do not overlap.  [skip] counts the characters of
    a matched occurrence that are still to be consumed. *)
Fixpoint replace_from (old new s : string) (skip : nat) : string :=
  match s with
  | "" => ""
  | String a s' =>
      match skip with
      | S k => replace_from old new s' k
      | O =>
          if startswith old s
          then new +:+ replace_from old new s' (String.length old - 1)
          else String a (replace_from old new s' 0)
      end
  end.

Definition replace (old new s : string) : string := replace_from old new s 0.

(** Concatenation of a list of strings ([''.join(parts)]). *)
Fixpoint concat (parts : list string) : string :=
  match parts with
  | [] => ""
  | p :: parts' => p +:+ concat parts'
  end.

(** Iterating over a text file yields its lines, each with its newline; the
    last one may lack it. *)
Fixpoint readlines (s : string) : list string :=
  match s with
  | "" => []
  | String a s' =>
      if decide (a = LF) then chr a :: readlines s'
      else match readlines s' with
           | [] => [chr a]
           | l :: ls => String a l :: ls
           end
  end.

(** [s.split(sep)] for a separator of one character. *)
Fixpoint split (sep : ascii) (s : string) : list string :=
  match s with
  | "" => [""]
  | String a s' =>
      if decide (a = sep) then "" :: split sep s'
      else match split sep s' with
           | [] => [chr a]
           | f :: fs => String a f :: fs
           end
  end.

(** Truth value of an optional string: [None] and [''] are false. *)
Definition truthy (k : option string) : bool :=
  match k with
  | Some (String _ _) => true
  | _ => false
  end.

(** [f"{k}"] for a key that is a string or [None]. *)
Definition format (k : option string) : string :=
  match k with
  | Some s => s
  | None => "None"
  end.

(** The text a Python literal denotes, for the two escapes used here:
    backslash-n and backslash-t. *)
Fixpoint lit (s : string) : string :=
  match s with
  | "" => ""
  | String a s' =>
      match s' with
      | String b s'' =>
          if decide (a = "\"%char) then
            if decide (b = "n"%char) then String LF (lit s'')
            else if decide (b = "t"%char) then String TAB (lit s'')
            else String a (lit s')
          else String a (lit s')
      | "" => chr a
      end
  end.

End Py.

(** Every character of [s] is one of [chars]. *)
Fixpoint all_in (chars s : string) : bool :=
  match s with
  | "" => true
  | String a s' => Py.char_in a chars && all_in chars s'
  end.

(** The first and the last character of a string. *)
Definition first_char (s : string) : option ascii := String.get 0 s.

Fixpoint last_char (s : string) : option ascii :=
  match s with
  | "" => None
  | String a s' => match last_char s' with Some b => Some b | None => Some a end
  end.

(** Neither end of [s] is one of [chars]. *)
Definition clean_ends (chars s : string) : Prop :=
  (∀ a, first_char s = Some a → Py.char_in a chars = false) ∧
  (∀ a, last_char s = Some a → Py.char_in a chars = false).

(** ** Exceptions *)

Inductive exn : Type :=
| EmptyDataError                      (* pandas: no columns to parse *)
| ParserError (line : nat)            (* pandas: too many fields in a row *)
| KeyError (labels : list string)     (* pandas: labels not found in axis *)
| FileNotFoundError (path : string)
| FileExistsError (path : string)
| IsADirectoryError (path : string)
| NotADirectoryError (path : string)
| OtherError (msg : string).          (* whatever a collaborator raises *)

Inductive result (A : Type) : Type :=
| Ok (a : A)
| Raise (e : exn).
Arguments Ok {A} a.
Arguments Raise {A} e.

Global Instance result_ret : MRet result := fun _ a => Ok a.
Global Instance result_bind : MBind result := fun _ _ f r =>
  match r with
  | Ok a => f a
  | Raise e => Raise e
  end.

(** ** [os.path] on POSIX *)

Module os_path.

(** [s.rfind(c)] for a character [c]; [None] stands for [-1]. *)
Fixpoint rfind (c : ascii) (s : string) : option nat :=
  match s with
  | "" => None
  | String a s' =>
      match rfind c s' with
      | Some i => Some (S i)
      | None => if decide (a = c) then Some 0 else None
      end
  end.

(** [s[:n]] and [s[n:]]. *)
Fixpoint take (n : nat) (s : string) : string :=
  match n, s with
  | S n', String a s' => String a (take n' s')
  | _, _ => ""
  end.

Fixpoint drop (n : nat) (s : string) : string :=
  match n, s with
  | S n', String _ s' => drop n' s'
  | _, _ => s
  end.

(** [posixpath.join(a, b)]. *)
Definition join (a b : string) : string :=
  if Py.startswith "/" b then b
  else if decide (a = "") then a +:+ b
  else if Py.endswith "/" a then a +:+ b
  else a +:+ "/" +:+ b.

(** [posixpath.basename(p)]: what follows the last slash. *)
Definition basename (p : string) : string :=
  match rfind "/" p with
  | Some i => drop (S i) p
  | None => p
  end.

(** [posixpath.dirname(p)]: what precedes the last slash, without the
    slashes that end it unless it is made of slashes only. *)
Definition dirname (p : string) : string :=
  let head := match rfind "/" p with Some i => take (S i) p | None => "" end in
  if bool_decide (head = "") || all_in "/" head then head
  else Py.rstrip "/" head.

(** The loop of [genericpath._splitext]: is there a character other than a
    dot among the [n] characters of [p] from index [i] on? *)
Fixpoint has_non_dot (p : string) (i n : nat) : bool :=
  match n with
  | O => false
  | S n' =>
      match String.get i p with
      | Some a => if decide (a = "."%char) then has_non_dot p (S i) n' else true
      | None => true
      end
  end.

(** [posixpath.splitext(p)]: the extension starts at the last dot of the
    last component, leading dots of that component not counting. *)
Definition splitext (p : string) : string * string :=
  let sepIndex := rfind "/" p in
  match rfind "." p with
  | Some dotIndex =>
      let filenameIndex := match sepIndex with Some i => S i | None => 0 end in
      if bool_decide (filenameIndex ≤ dotIndex)
         && has_non_dot p filenameIndex (dotIndex - filenameIndex)
      then (take dotIndex p, drop dotIndex p)
      else (p, "")
  | None => (p, "")
  end.

(** The directories above [p]: its proper prefixes that end before a slash. *)
Fixpoint parents_from (pre s : string) : list string :=
  match s with
  | "" => []
  | String a s' =>
      (if bool_decide (a = "/"%char) && negb (bool_decide (pre = "")) then [pre] else [])
        ++ parents_from (pre +:+ Py.chr a) s'
  end.

Definition parents (p : string) : list string := parents_from "" p.

End os_path.

(** ** The file system and the effects of the program

    A file system maps a path to a regular file with its content or to a
    directory.  A file is created inside an existing directory; a relative
    name without directory part lies in the current directory. *)

Inductive node : Type :=
| File (content : string)
| Dir.

Global Instance node_eq_dec : EqDecision node.
Proof. solve_decision. Defined.

Abbreviation FS := (gmap string node).

(** Code that reads and writes the file system and may raise. *)
Definition M (A : Type) : Type := FS → result A * FS.

Global Instance M_ret : MRet M := fun _ a fs => (Ok a, fs).
Global Instance M_bind : MBind M := fun _ _ f m fs =>
  match m fs with
  | (Ok a, fs') => f a fs'
  | (Raise e, fs') => (Raise e, fs')
  end.

Definition raise {A} (e : exn) : M A := fun fs => (Raise e, fs).

(** A pure computation that may raise, inside [M]. *)
Definition lift {A} (r : result A) : M A := fun fs => (r, fs).

(** [try: body finally: final].  The final block runs whatever the body
    did; if it raises, its exception is the one that propagates. *)
Definition try_finally {A} (body : M A) (final : M unit) : M A := fun fs =>
  let '(r, fs1) := body fs in
  match final fs1 with
  | (Ok _, fs2) => (r, fs2)
  | (Raise e, fs2) => (Raise e, fs2)
  end.

(** [try: body except Exception as e: logging.error(...); raise]: the log
    record apart, the exception goes on unchanged. *)
Definition try_log_reraise {A} (body : M A) : M A := body.

(** [for x in xs: body(x)]. *)
Fixpoint for_each {A} (xs : list A) (body : A → M unit) : M unit :=
  match xs with
  | [] => mret tt
  | x :: xs' => body x ;; for_each xs' body
  end.

Module os.

(** [os.path.exists(p)]. *)
Definition exists_ (p : string) : M bool := fun fs =>
  (Ok (bool_decide (is_Some (fs !! p))), fs).

(** [os.path.isdir(p)]. *)
Definition isdir (p : string) : M bool := fun fs =>
  (Ok (bool_decide (fs !! p = Some Dir)), fs).

(** [os.remove(p)]: only a regular file can be removed. *)
Definition remove (p : string) : M unit := fun fs =>
  match fs !! p with
  | Some (File _) => (Ok tt, delete p fs)
  | Some Dir => (Raise (IsADirectoryError p), fs)
  | None => (Raise (FileNotFoundError p), fs)
  end.

(** [os.mkdir(p)]: nothing may be at [p], and its parent must be a
    directory; a name without directory part lies in the current
    directory. *)
Definition mkdir (p : string) : M unit := fun fs =>
  match fs !! p with
  | Some _ => (Raise (FileExistsError p), fs)
  | None =>
      let parent := os_path.dirname p in
      match (if bool_decide (parent = "") then Some Dir else fs !! parent) with
      | Some Dir => (Ok tt, <[p := Dir]> fs)
      | Some (File _) => (Raise (NotADirectoryError p), fs)
      | None => (Raise (FileNotFoundError p), fs)
      end
  end.

(** The directories above the leaf that [os.makedirs] makes: it climbs from
    the leaf while nothing is at the parent's path, so they are the paths
    below the deepest one that exists. *)
Fixpoint to_make (ds : list string) (fs : FS) : list string :=
  match ds with
  | [] => []
  | d :: ds' =>
      if forallb (fun x => bool_decide (fs !! x = None)) (d :: ds') then d :: ds'
      else to_make ds' fs
  end.

(** [os.makedirs(p)]: the missing directories above [p], topmost first,
    then [p]. *)
Definition makedirs (p : string) : M unit := fun fs =>
  ((for_each (to_make (os_path.parents p) fs) mkdir ;; mkdir p) : M unit) fs.

(** [os.listdir(p)]: the names directly inside the directory [p]. *)
Definition entry_name (p k : string) : option string :=
  let pre := p +:+ "/" in
  if Py.startswith pre k then
    let n := os_path.drop (String.length pre) k in
    if bool_decide (n = "") || Py.char_in "/" n then None else Some n
  else None.

Definition listdir (p : string) : M (list string) := fun fs =>
  match fs !! p with
  | Some Dir => (Ok (omap (entry_name p) (map_to_list fs).*1), fs)
  | Some (File _) => (Raise (NotADirectoryError p), fs)
  | None => (Raise (FileNotFoundError p), fs)
  end.

End os.

(** [if not os.path.exists(p): os.makedirs(p)]. *)
Definition ensure_dir (p : string) : M unit :=
  os.exists_ p ≫= fun present : bool =>
  if present then mret tt else os.makedirs p.

(** [open(p)] followed by reading the whole text, as decoded: text mode
    translates every line ending to a newline. *)
Definition open_read (p : string) : M string := fun fs =>
  match fs !! p with
  | Some (File c) => (Ok c, fs)
  | Some Dir => (Raise (IsADirectoryError p), fs)
  | None => (Raise (FileNotFoundError p), fs)
  end.

(** Can a file be opened for writing at [p]?  Its parent must be a
    directory and [p] itself must not be one. *)
Definition writable (p : string) (fs : FS) : result unit :=
  let parent := os_path.dirname p in
  match (if bool_decide (parent = "") then Some Dir else fs !! parent) with
  | Some Dir =>
      match fs !! p with
      | Some Dir => Raise (IsADirectoryError p)
      | _ => Ok tt
      end
  | Some (File _) => Raise (NotADirectoryError p)
  | None => Raise (FileNotFoundError p)
  end.

(** [open(p, 'w')] followed by writing [c]: the file is created or replaced. *)
Definition open_write (p c : string) : M unit := fun fs =>
  match writable p fs with
  | Ok _ => (Ok tt, <[p := File c]> fs)
  | Raise e => (Raise e, fs)
  end.

(** ** Tables and the tabular collaborator

    The program hands tab-separated text to pandas and gets data frames
    back.  What the parser does inside is not the program's business, so the
    Segmenter is written against this interface. *)

Class Tabular (DataFrame : Type) : Type := {
  (** [pd.read_csv(fio, sep='\t')], [header='infer'] being the default. *)
  read_csv : string → result DataFrame;
  (** the text [df.to_csv(path, sep='\t', index=False)] writes. *)
  to_csv : DataFrame → string;
  (** [df.drop(columns=labels)]. *)
  drop : list string → DataFrame → result DataFrame;
}.

(** A Python [dict] whose keys are strings or [None]: insertion order is kept,
    and assigning to a key that is present replaces its value in place. *)
Definition dict (V : Type) : Type := list (option string * V).

Fixpoint dict_set {V} (k : option string) (v : V) (d : dict V) : dict V :=
  match d with
  | [] => [(k, v)]
  | (k', v') :: d' =>
      if decide (k = k') then (k, v) :: d' else (k', v') :: dict_set k v d'
  end.

Fixpoint dict_get {V} (k : option string) (d : dict V) : option V :=
  match d with
  | [] => None
  | (k', v') :: d' => if decide (k = k') then Some v' else dict_get k d'
  end.

(** ** The Segmenter: [SegmentTables._process_text_file] *)

(** The characters [line.strip('[]\n')] removes. *)
Definition BRACKETS : string := "[]" +:+ Py.chr Py.LF.

(** The columns the reduced Probes table lacks (line 140). *)
Definition PROBES_DROPPED : list string :=
  ["Definition"; "Ontology_Component"; "Ontology_Process"; "Ontology_Function";
   "Synonyms"; "Obsolete_Probe_Id"; "Probe_Sequence"].

Section Segmenter.
Context {DataFrame : Type} `{!Tabular DataFrame}.

(** The variables of the parsing loop (lines 109, 112 and 113). *)
Record seg_state : Type := SegState {
  fio : string;
  write_key : option string;
  dfs : dict DataFrame;
}.

Definition seg_init : seg_state := SegState "" None [].

(** Lines 116-119: [fio.seek(0)], parse, store, fresh buffer. *)
Definition flush_section (st : seg_state) : result seg_state :=
  if Py.truthy (write_key st) then
    df ← read_csv (fio st);
    mret (SegState "" (write_key st) (dict_set (write_key st) df (dfs st)))
  else mret st.

(** Lines 115-122: the body of [for line in file]. *)
Definition seg_line (st : seg_state) (line : string) : result seg_state :=
  if Py.startswith "[" line then
    st' ← flush_section st;
    mret (SegState (fio st') (Some (Py.strip BRACKETS line)) (dfs st'))
  else
    mret (SegState (fio st +:+ line) (write_key st) (dfs st)).

Fixpoint seg_loop (st : seg_state) (lines : list string) : result seg_state :=
  match lines with
  | [] => mret st
  | line :: lines' => st' ← seg_line st line; seg_loop st' lines'
  end.

(** Lines 112-124: the tables of a file given as its lines. *)
Definition parse_sections (lines : list string) : result (dict DataFrame) :=
  st ← seg_loop seg_init lines;
  df ← read_csv (fio st);
  mret (dict_set (write_key st) df (dfs st)).

(** Lines 132-144: one iteration of [for key, df in dfs.items()]. *)
Definition save_table (output_dir filename : string)
    (key : option string) (df : DataFrame) : M unit :=
  let output_path :=
    os_path.join output_dir
      (Py.replace ".txt" ("_" +:+ Py.format key +:+ ".tsv") filename) in
  open_write output_path (to_csv df) ;;
  if decide (key = Some "Probes") then
    probes_reduced_df ← lift (drop PROBES_DROPPED df);
    let reduced_output_path := os_path.join output_dir "Probes_reduced.tsv" in
    open_write reduced_output_path (to_csv probes_reduced_df)
  else mret tt.

(** Lines 108-148. *)
Definition _process_text_file
    (dataset_name file_path filename dir_name : string) : M unit :=
  try_log_reraise (
    content ← open_read file_path;
    tables ← lift (parse_sections (Py.readlines content));
    let output_dir :=
      os_path.join (os_path.join "processed" dataset_name) dir_name in
    ensure_dir output_dir ;;
    for_each tables (fun kv => save_table output_dir filename kv.1 kv.2)).

(** Lines 96-105: [SegmentTables.run], given the path of its input. *)
Definition segment_run (dataset_name extract_path : string) : M unit :=
  dir_names ← os.listdir extract_path;
  for_each dir_names (fun dir_name =>
    let dir_path := os_path.join extract_path dir_name in
    os.isdir dir_path ≫= fun is_dir : bool =>
    if is_dir then
      filenames ← os.listdir dir_path;
      for_each filenames (fun filename =>
        let file_path := os_path.join dir_path filename in
        if negb (Py.endswith ".txt" filename) then mret tt
        else _process_text_file dataset_name file_path filename dir_name)
    else mret tt).

(** *** The parsing algorithm as the specification words it

    A state is the current tag and the buffered lines.  Scanning yields the
    sections to finalize, in order, the one at end of file included;
    [is_set] says when a tag counts as set.  Each section is then parsed
    and stored under its tag. *)
Fixpoint spec_scan (is_set : option string → bool)
    (tag : option string) (buffer lines : list string)
    : list (option string * list string) :=
  match lines with
  | [] => [(tag, buffer)]
  | line :: rest =>
      if Py.startswith "[" line then
        let tag' := Some (Py.strip BRACKETS line) in
        if is_set tag then (tag, buffer) :: spec_scan is_set tag' [] rest
        else spec_scan is_set tag' buffer rest
      else spec_scan is_set tag (buffer ++ [line]) rest
  end.

Definition spec_finalize (tables : dict DataFrame)
    (section : option string * list string) : result (dict DataFrame) :=
  df ← read_csv (Py.concat section.2);
  mret (dict_set section.1 df tables).

Fixpoint spec_store (tables : dict DataFrame)
    (sections : list (option string * list string)) : result (dict DataFrame) :=
  match sections with
  | [] => mret tables
  | s :: rest => tables' ← spec_finalize tables s; spec_store tables' rest
  end.

Definition spec_parse (is_set : option string → bool) (lines : list string)
    : result (dict DataFrame) :=
  spec_store [] (spec_scan is_set None [] lines).

End Segmenter.

(** A tag is set when it is defined, whatever its text. *)
Definition tag_defined (tag : option string) : bool :=
  match tag with
  | Some _ => true
  | None => false
  end.

(** A tag is set when it is defined and its text is not empty. *)
Definition tag_nonempty (tag : option string) : bool :=
  match tag with
  | Some s => negb (bool_decide (s = ""))
  | None => false
  end.

(** Is the line a section-tag line? *)
Definition is_tag_line (line : string) : bool := Py.startswith "[" line.

(** The section-tag lines among the lines of a file. *)
Definition tag_lines (lines : list string) : list string :=
  filter (fun l => is_tag_line l = true) lines.

(** No line of [lines] is a section-tag line. *)
Definition data_only (lines : list string) : Prop :=
  Forall (fun l => is_tag_line l = false) lines.


(** The tag and the lines the loop of lines 114-122 holds in [write_key]
    and [fio] once [lines] are read, the parser left aside: a tag line
    replaces the tag, and empties the buffer when the tag it replaces is
    truthy (line 116); any other line is appended (line 122). *)
Fixpoint buffered (tag : option string) (buffer lines : list string)
    : option string * list string :=
  match lines with
  | [] => (tag, buffer)
  | line :: rest =>
      if Py.startswith "[" line then
        buffered (Some (Py.strip BRACKETS line))
          (if Py.truthy tag then [] else buffer) rest
      else buffered tag (buffer ++ [line]) rest
  end.

(** *** The parsing loop with its calls to the parser recorded

    The loop of lines 111-124 once more, each computation giving, besides
    its outcome, the texts it hands to [pd.read_csv] (lines 118 and 124), in
    order; nothing is handed over after a failure. *)




Section SegmenterLog.
Context {DataFrame : Type} `{!Tabular DataFrame}.






End SegmenterLog.

(** ** The pandas behaviour the program relies on

    pandas is an external collaborator (section 6 of the specification,
    "Tabular I/O collaborator"); section 7 names its failures: malformed
    tabular content and a column that is absent when the reduced table is
    projected.  The model covers tab-separated text without quoting.  Cells
    stay text. *)

Module pandas.

Record DataFrame : Type := {
  columns : list string;
  rows : list (list string);
}.

Definition pad (width : nat) (fields : list string) : list string :=
  fields ++ replicate (width - length fields) "".

Fixpoint parse_rows (width lineno : nat) (lines : list string)
    : result (list (list string)) :=
  match lines with
  | [] => mret []
  | l :: rest =>
      let fields := Py.split Py.TAB l in
      if bool_decide (length fields ≤ width) then
        rs ← parse_rows width (S lineno) rest;
        mret (pad width fields :: rs)
      else Raise (ParserError lineno)
  end.

(** Modelled from the spec: [pd.read_csv(text, sep='\t')] of pandas, which
    is not part of src/.  Blank lines are skipped; a text without any line has
    no columns to parse; the first line names the columns; a short row is
    padded with missing values and a row longer than the header is a parse
    error (sections 6 and 7). *)
Definition read_csv (text : string) : result DataFrame :=
  match filter (fun l => l ≠ "") (Py.split Py.LF text) with
  | [] => Raise EmptyDataError
  | header :: body =>
      let cols := Py.split Py.TAB header in
      rs ← parse_rows (length cols) 2 body;
      mret {| columns := cols; rows := rs |}
  end.

(** [sep.join(fields)]. *)
Fixpoint join (sep : ascii) (fields : list string) : string :=
  match fields with
  | [] => ""
  | [f] => f
  | f :: fields' => f +:+ String sep (join sep fields')
  end.

Definition to_csv (df : DataFrame) : string :=
  Py.concat (map (fun r => join Py.TAB r +:+ Py.chr Py.LF) (columns df :: rows df)).

(** The cells of a row under the columns that stay. *)
Fixpoint select {A} (keep : list bool) (xs : list A) : list A :=
  match keep, xs with
  | b :: keep', x :: xs' => if b then x :: select keep' xs' else select keep' xs'
  | _, _ => []
  end.

(** Modelled from the spec: [df.drop(columns=labels)] of pandas, which is
    not part of src/, with the default [errors='raise']: every label must
    name a column (sections 4.4 and 7: column removal requires the columns
    to be present). *)
Definition drop (labels : list string) (df : DataFrame) : result DataFrame :=
  match filter (fun l => l ∉ columns df) labels with
  | [] =>
      let keep := map (fun c => bool_decide (c ∉ labels)) (columns df) in
      Ok {| columns := select keep (columns df);
            rows := map (select keep) (rows df) |}
  | missing => Raise (KeyError missing)
  end.

End pandas.

Global Instance pandas_tabular : Tabular pandas.DataFrame := {|
  read_csv := pandas.read_csv;
  to_csv := pandas.to_csv;
  drop := pandas.drop;
|}.

(** ** The stage graph: [requires] and [output] of the three tasks *)

Inductive Stage : Type :=
| DownloadData
| ExtractAndProcessData
| SegmentTables.

Global Instance Stage_eq_dec : EqDecision Stage.
Proof. solve_decision. Defined.

(** Lines 36-37 and 92-93; [DownloadData] has no [requires]. *)
Definition requires (s : Stage) : option Stage :=
  match s with
  | DownloadData => None
  | ExtractAndProcessData => Some DownloadData
  | SegmentTables => Some ExtractAndProcessData
  end.

(** Lines 16-17, 84-85 and 151-152: the path of the stage's target. *)
Definition output (s : Stage) (dataset_name : string) : string :=
  match s with
  | DownloadData => os_path.join "data" (dataset_name +:+ "_RAW.tar")
  | ExtractAndProcessData => os_path.join "extracted" dataset_name
  | SegmentTables => os_path.join "processed" dataset_name
  end.


(** ** The transport, archive and compression collaborators

    What wget, tarfile and gzip do is outside the program; it only
    sequences them.  The transport and the archive reader act on the file
    system in any way and may raise; [tar_extract] stands for lines 46-51
    ([tarfile.open], [extractall], [getnames]).  Decompression yields the
    bytes produced before the stream ends or fails, and the failure. *)

Class Collaborators : Type := {
  wget_download : string → string → M unit;
  tar_extract : string → string → M (list string);
  gunzip : string → string * option exn;
}.

(** Lines 61-62 and 70-71 compute paths only. *)
Section MemberPaths.

(** Line 61: the extracted member. *)
Definition item_path (extract_path item : string) : string :=
  os_path.join extract_path item.

(** Line 62: the directory made for it. *)
Definition item_dir (extract_path item : string) : string :=
  os_path.join extract_path (os_path.splitext item).1.

(** Lines 70-71: where the decompressed bytes go. *)
Definition output_path (gz_path extract_path : string) : string :=
  let filename := (os_path.splitext (os_path.basename gz_path)).1 in
  os_path.join extract_path filename.

End MemberPaths.

Section Unpacker.
Context `{!Collaborators}.

(** Lines 20-29: [DownloadData.run]. *)
Definition download_run (dataset_name : string) : M unit :=
  let url := "https://www.ncbi.nlm.nih.gov/geo/download/?acc="
               +:+ dataset_name +:+ "&format=file" in
  ensure_dir "data" ;;
  try_log_reraise (wget_download url (output DownloadData dataset_name)).

(** Lines 73-76: the two files are opened, then the bytes are copied. *)
Definition decompress (gz_path target : string) : M unit :=
  open_read gz_path ;;                       (* gzip.open(gz_path, 'rb') *)
  open_write target "" ;;                    (* open(output_path, 'wb') *)
  compressed ← open_read gz_path;            (* shutil.copyfileobj *)
  open_write target (gunzip compressed).1 ;;
  match (gunzip compressed).2 with
  | Some e => raise e
  | None => mret tt
  end.

(** Lines 69-81. *)
Definition _process_gzip_file (gz_path extract_path : string) : M unit :=
  try_finally
    (try_log_reraise (decompress gz_path (output_path gz_path extract_path)))
    (os.remove gz_path).

(** Lines 45-57: the archive is opened, unpacked and removed. *)
Definition extract_archive (tar_path extract_path : string) : M (list string) :=
  try_finally
    (try_log_reraise (tar_extract tar_path extract_path))
    (os.remove tar_path).

(** Lines 61-66: one iteration of [for item in file_names]. *)
Definition process_member (extract_path item : string) : M unit :=
  ensure_dir (item_dir extract_path item) ;;
  if Py.endswith ".gz" item
  then _process_gzip_file (item_path extract_path item) (item_dir extract_path item)
  else mret tt.

(** Lines 40-66: [ExtractAndProcessData.run], given the path of its input. *)
Definition extract_run (dataset_name tar_path : string) : M unit :=
  let extract_path := os_path.join "extracted" dataset_name in
  ensure_dir extract_path ;;
  file_names ← extract_archive tar_path extract_path;
  for_each file_names (process_member extract_path).

End Unpacker.

(** The [run] of each stage; [self.input().path] is the output path of the
    stage it requires. *)
Definition stage_run {DataFrame : Type} `{!Tabular DataFrame, !Collaborators}
    (s : Stage) (dataset_name : string) : M unit :=
  match s with
  | DownloadData => download_run dataset_name
  | ExtractAndProcessData =>
      extract_run dataset_name (output DownloadData dataset_name)
  | SegmentTables =>
      segment_run dataset_name (output ExtractAndProcessData dataset_name)
  end.

(** ** The pipeline engine

    The engine behind [luigi.build] (line 156) is the luigi scheduler, which
    is not part of src/; the program gives it the stage graph. *)

Section Engine.
(** The run action of each stage. *)
Variable run : Stage → string → M unit.

(** Modelled from the spec: the completion test of the engine, which is not
    part of src/.  A stage's completion is detected by the presence of its
    declared output (section 2). *)
Definition complete (s : Stage) (dataset_name : string) (fs : FS) : bool :=
  bool_decide (is_Some (fs !! output s dataset_name)).

(** Modelled from the spec: the scheduling of the engine, which is not part
    of src/.  Section 4.1: from the requested stage the dependency chain is
    resolved backward; a stage whose output exists is treated as satisfied,
    its run action is skipped and nothing upstream of it is looked at; the
    other stages are to run, the earliest dependency first.  The chain is
    followed for at most [depth] stages. *)
Fixpoint resolve (depth : nat) (s : Stage) (dataset_name : string) (fs : FS)
    : list Stage :=
  match depth with
  | O => []
  | S depth' =>
      if complete s dataset_name fs then []
      else
        match requires s with
        | Some upstream => resolve depth' upstream dataset_name fs
        | None => []
        end ++ [s]
  end.

(** Modelled from the spec: the execution of the engine, which is not part
    of src/.  Section 4.1: the stages run strictly in sequence; when a
    stage's action raises, the run is aborted and no later stage runs.
    Returns the stages whose action was started. *)
Fixpoint execute (dataset_name : string) (plan : list Stage) (fs : FS)
    : list Stage * (result unit * FS) :=
  match plan with
  | [] => ([], (Ok tt, fs))
  | s :: plan' =>
      match run s dataset_name fs with
      | (Ok _, fs') =>
          let '(started, outcome) := execute dataset_name plan' fs' in
          (s :: started, outcome)
      | (Raise e, fs') => ([s], (Raise e, fs'))
      end
  end.

(** Modelled from the spec: a run of the engine for a terminal stage.  There
    are three stages, so no chain is longer. *)
Definition build (terminal : Stage) (dataset_name : string) (fs : FS)
    : list Stage * (result unit * FS) :=
  execute dataset_name (resolve 3 terminal dataset_name fs) fs.

End Engine.

(** Line 156: the program asks for the terminal stage. *)
Definition pipeline {DataFrame : Type} `{!Tabular DataFrame, !Collaborators}
    (dataset_name : string) (fs : FS) : list Stage * (result unit * FS) :=
  build stage_run SegmentTables dataset_name fs.

(** ** Concrete files

    The synthetic file of the specification (section 8), the same file with
    every column of the reduction present, and small files that exercise the
    edges of the parsing loop. *)

Module Files.

Definition synthetic : string :=
  Py.lit "[Header]\na\tb\n1\t2\n[Probes]\nID\tDefinition\tProbe_Sequence\n1\tfoo\tACGT\n".

Definition synthetic_full : string :=
  Py.lit "[Header]\na\tb\n1\t2\n[Probes]\nID\tDefinition\tOntology_Component\tOntology_Process\tOntology_Function\tSynonyms\tObsolete_Probe_Id\tProbe_Sequence\n1\tfoo\tc\tp\tf\ts\to\tACGT\n".

(** An empty tag, then two sections' worth of lines. *)
Definition empty_tag : string := Py.lit "[]\na\tb\n[X]\nc\td\n".

(** Two tag lines with the same tag. *)
Definition same_tag : string := Py.lit "[A]\nx\n1\n[A]\ny\n2\n".



(** A section, an empty tag line, then a tag line that ends the file. *)
Definition emptied_then_tag : string := Py.lit "[A]\nx\n[]\n[B]\n".

(** A file without tag line. *)
Definition plain : string := Py.lit "a\tb\n1\t2\n".

(** Where the Unpacker leaves a text file of the data set, and the
    arguments [SegmentTables.run] passes for it. *)
Definition dataset_name : string := "GSE68849".
Definition dir_name : string := "GPL10558".
Definition filename : string := "GPL10558.txt".
Definition file_path : string := "extracted/GSE68849/GPL10558/GPL10558.txt".

Definition disk (content : string) : FS := {[ file_path := File content ]}.

(** What processing the file [content] does to a disk that holds it. *)
Definition processed (content : string) : result unit * FS :=
  _process_text_file dataset_name file_path filename dir_name (disk content).

End Files.

(** ** Sample collaborators, for concrete runs

    The transport stores a fixed archive text; the archive reader rejects an
    archive whose text is not the expected one and otherwise unpacks a single
    member, [GSM1.txt.gz]; decompression accepts a stream that starts with
    [gz:] and yields what follows it. *)

Module Sample.

Definition member : string := "GSM1.txt.gz".
Definition archive : string := Py.lit "gz:a	b
1	2
".

Definition sample_wget (url path : string) : M unit := open_write path archive.

Definition sample_tar_extract (tar_path extract_path : string) : M (list string) :=
  content ← open_read tar_path;
  if Py.startswith "gz:" content then
    open_write (os_path.join extract_path member) content ;;
    mret [member]
  else raise (OtherError "ReadError").

Definition sample_gunzip (compressed : string) : string * option exn :=
  if Py.startswith "gz:" compressed then (os_path.drop 3 compressed, None)
  else ("", Some (OtherError "BadGzipFile")).

Global Instance collaborators : Collaborators := {|
  wget_download := sample_wget;
  tar_extract := sample_tar_extract;
  gunzip := sample_gunzip;
|}.

(** A disk that holds the archive of the data set, sound or corrupt, and
    the extraction directory. *)
Definition tar_path : string := output DownloadData Files.dataset_name.
Definition extract_path : string := output ExtractAndProcessData Files.dataset_name.

Definition disk (archive_text : string) : FS :=
  {[ "data" := Dir; tar_path := File archive_text;
     "extracted" := Dir; extract_path := Dir ]}.

(** The disk once the archive is unpacked and removed. *)
Definition unpacked : FS :=
  {[ "data" := Dir; "extracted" := Dir; extract_path := Dir;
     item_path extract_path member := File archive ]}.

End Sample.

(** ** Sample disks, for concrete runs *)

Module Disks.

(** An extraction directory without any name ending in [.txt] inside its
    subdirectories. *)
Definition other_files : FS :=
  {[ "extracted/GSE68849" := Dir;
     "extracted/GSE68849/readme.md" := File "x";
     "extracted/GSE68849/GSM1" := Dir;
     "extracted/GSE68849/GSM1/a.csv" := File "" ]}.

(** The archive is there, but a regular file stands where the extraction
    root should be. *)
Definition blocked : FS :=
  {[ "extracted" := File "x"; Sample.tar_path := File Sample.archive ]}.

(** An output directory that exists. *)
Definition output_dir : string := "processed/GSE68849/GPL10558".

Definition ready : FS :=
  {[ "processed" := Dir; "processed/GSE68849" := Dir; output_dir := Dir ]}.

(** A text file without tag line, named after a stem without dot. *)
Definition untagged : FS := {[ Files.file_path := File Files.plain ]}.

End Disks.

(** ** Notions used to state further properties *)

(** The lines of a file made of sections: a tag line, then its data lines. *)
Definition section_lines (secs : list (string * list string)) : list string :=
  flat_map (fun s => s.1 :: s.2) secs.

(** A section starts with a tag line whose tag is not empty, and the lines
    that follow it are data lines. *)
Definition well_formed_section (s : string * list string) : Prop :=
  is_tag_line s.1 = true ∧ Py.strip BRACKETS s.1 ≠ "" ∧ data_only s.2.

(** The key under which a section is stored. *)
Definition section_key (s : string * list string) : option string :=
  Some (Py.strip BRACKETS s.1).

(** The data lines among the lines of a file. *)
Definition data_lines (lines : list string) : list string :=
  filter (fun l => is_tag_line l = false) lines.

(** [m] removes no path: what exists before exists after. *)
Definition keeps_paths {A} (m : M A) : Prop :=
  ∀ fs p, is_Some (fs !! p) → is_Some ((m fs).2 !! p).

(** [m] leaves every existing entry as it is. *)
Definition keeps_entries {A} (m : M A) : Prop :=
  ∀ fs p n, fs !! p = Some n → (m fs).2 !! p = Some n.


(** ** Tactics *)

Ltac unfold_result :=
  unfold mbind, mret, result_bind, result_ret in *; simpl in *.

(** Runs the binds of [result] without unfolding anything else. *)
Ltac step_result :=
  cbv beta iota delta [mbind mret result_bind result_ret] in *.

(** Runs the binds of [M] without unfolding anything else. *)
Ltac step_M :=
  cbv beta iota delta [mbind mret M_bind M_ret lift raise try_log_reraise] in *.

(** * Properties *)

(** ** Strings *)

Section StringFacts.

(** stdpp keeps [+:+] folded under [simpl]; these unfold it by hand. *)
Lemma app_nil_s (s : string) : "" +:+ s = s.
Proof. reflexivity. Qed.

Lemma app_cons_s (a : ascii) (s t : string) :
  String a s +:+ t = String a (s +:+ t).
Proof. reflexivity. Qed.

Lemma app_empty_r (s : string) : s +:+ "" = s.
Proof.
  induction s as [|a s IH]; [done |].
  by rewrite app_cons_s, IH.
Qed.

Lemma app_assoc_s (s t u : string) : (s +:+ t) +:+ u = s +:+ t +:+ u.
Proof.
  induction s as [|a s IH]; [done |].
  by rewrite !app_cons_s, IH.
Qed.

Lemma concat_app (xs ys : list string) :
  Py.concat (xs ++ ys) = Py.concat xs +:+ Py.concat ys.
Proof.
  induction xs as [|x xs IH]; simpl; [done |].
  by rewrite IH, app_assoc_s.
Qed.

Lemma concat_snoc (xs : list string) (x : string) :
  Py.concat (xs ++ [x]) = Py.concat xs +:+ x.
Proof.
  rewrite concat_app. change (Py.concat [x]) with (x +:+ "").
  by rewrite app_empty_r.
Qed.

(** Reading a text line by line loses nothing. *)
Lemma concat_readlines (s : string) : Py.concat (Py.readlines s) = s.
Proof.
  induction s as [|a s IH]; simpl; [done |].
  destruct (decide (a = Py.LF)); simpl.
  - by rewrite IH.
  - destruct (Py.readlines s) as [|l ls]; simpl in *.
    + by rewrite <- IH.
    + by rewrite app_cons_s, IH.
Qed.

Lemma startswith_bracket (line : string) :
  Py.startswith "[" line = true ↔ String.get 0 line = Some "["%char.
Proof.
  destruct line as [|a l]; simpl; [split; discriminate |].
  destruct (decide ("["%char = a)) as [<-|Hne]; [done |].
  split; [discriminate | intros [= ->]; done].
Qed.

End StringFacts.

Section StripFacts.
Variable chars : string.

Lemma lstrip_split (s : string) :
  ∃ pre, s = pre +:+ Py.lstrip chars s ∧ all_in chars pre = true.
Proof.
  induction s as [|a s [pre [Hs Hpre]]]; simpl.
  - by exists "".
  - destruct (Py.char_in a chars) eqn:Ha.
    + exists (String a pre). simpl. rewrite Ha, Hpre, app_cons_s.
      by rewrite <- Hs.
    + by exists "".
Qed.

Lemma lstrip_first (s : string) (a : ascii) :
  first_char (Py.lstrip chars s) = Some a → Py.char_in a chars = false.
Proof.
  induction s as [|b s IH]; simpl; [discriminate |].
  destruct (Py.char_in b chars) eqn:Hb; [done |].
  by intros [= <-].
Qed.

Lemma rstrip_split (s : string) :
  ∃ suf, s = Py.rstrip chars s +:+ suf ∧ all_in chars suf = true.
Proof.
  induction s as [|a s [suf [Hs Hsuf]]]; simpl.
  - by exists "".
  - destruct (Py.rstrip chars s) as [|b r] eqn:Hr.
    + rewrite app_nil_s in Hs. subst suf.
      destruct (Py.char_in a chars) eqn:Ha.
      * exists (String a s). simpl. by rewrite Ha, Hsuf.
      * by exists s.
    + exists suf. split; [| done]. by rewrite app_cons_s, <- Hs.
Qed.

Lemma rstrip_last (s : string) (a : ascii) :
  last_char (Py.rstrip chars s) = Some a → Py.char_in a chars = false.
Proof.
  revert a. induction s as [|b s IH]; intros a; simpl; [discriminate |].
  destruct (Py.rstrip chars s) as [|c r] eqn:Hr.
  - destruct (Py.char_in b chars) eqn:Hb; simpl; [discriminate |].
    by intros [= <-].
  - simpl. simpl in IH.
    destruct (last_char r) as [d|] eqn:Hd.
    + intros [= <-]. by apply IH.
    + intros [= <-]. by apply IH.
Qed.

(** Stripping on the right leaves a clean first character in place. *)
Lemma rstrip_first (s : string) (a : ascii) :
  first_char (Py.rstrip chars s) = Some a → first_char s = Some a.
Proof.
  destruct s as [|b s]; simpl; [done |].
  destruct (Py.rstrip chars s); [| done].
  by destruct (Py.char_in b chars).
Qed.

(** [s.strip(chars)] is [s] without a prefix and a suffix made of [chars],
    and neither of its ends is one of [chars]. *)
Lemma strip_spec (s : string) :
  ∃ pre suf,
    s = pre +:+ Py.strip chars s +:+ suf ∧
    all_in chars pre = true ∧ all_in chars suf = true ∧
    clean_ends chars (Py.strip chars s).
Proof.
  unfold Py.strip.
  destruct (lstrip_split s) as [pre [Hs Hpre]].
  destruct (rstrip_split (Py.lstrip chars s)) as [suf [Hl Hsuf]].
  exists pre, suf. repeat split; try done.
  - by rewrite <- Hl.
  - intros a Ha. apply rstrip_first in Ha. by eapply lstrip_first.
  - apply rstrip_last.
Qed.

End StripFacts.

(** ** The Segmenter *)

Section SegmenterFacts.
Context {DataFrame : Type} `{!Tabular DataFrame}.

Lemma truthy_nonempty (k : option string) : Py.truthy k = tag_nonempty k.
Proof. by destruct k as [[|a s]|]. Qed.

(** The simulation behind the refinement: the text of [fio] is the
    concatenation of the buffered lines. *)
Lemma seg_loop_scan (lines buffer : list string) (st : seg_state) :
  fio st = Py.concat buffer →
  (st' ← seg_loop st lines;
   df ← read_csv (fio st');
   mret (dict_set (write_key st') df (dfs st')))
  = spec_store (dfs st) (spec_scan tag_nonempty (write_key st) buffer lines).
Proof.
  revert buffer st.
  induction lines as [|line rest IH]; intros buffer st Hbuf.
  - cbn [seg_loop spec_scan spec_store]. unfold spec_finalize.
    unfold_result. rewrite Hbuf.
    by destruct (read_csv (Py.concat buffer)).
  - cbn [seg_loop spec_scan]. unfold seg_line, flush_section.
    destruct (Py.startswith "[" line) eqn:Htag.
    + rewrite truthy_nonempty.
      destruct (tag_nonempty (write_key st)) eqn:Hset.
      * cbn [spec_store]. unfold spec_finalize. cbn [fst snd].
        rewrite <- Hbuf.
        destruct (read_csv (fio st)) as [df|e]; [| done].
        specialize (IH [] (SegState "" (Some (Py.strip BRACKETS line))
                             (dict_set (write_key st) df (dfs st))) eq_refl).
        step_result. cbn [fio write_key dfs] in *. by rewrite <- IH.
      * specialize (IH buffer (SegState (fio st) (Some (Py.strip BRACKETS line))
                                 (dfs st)) Hbuf).
        step_result. cbn [fio write_key dfs] in *. by rewrite <- IH.
    + specialize (IH (buffer ++ [line])
                    (SegState (fio st +:+ line) (write_key st) (dfs st))).
      step_result. cbn [fio write_key dfs] in *. rewrite <- IH; [done |].
      by rewrite concat_snoc, Hbuf.
Qed.

(** The parsing loop computes what the scan of the specification, with a
    tag counting as set when it is not empty, finalizes. *)
Lemma parse_sections_scan (lines : list string) :
  parse_sections lines = spec_parse tag_nonempty lines.
Proof.
  unfold parse_sections, spec_parse.
  by rewrite (seg_loop_scan lines [] seg_init).
Qed.

(** *** Facts about the scan *)

Lemma scan_data (is_set : option string → bool) (tag : option string)
    (data rest buffer : list string) :
  data_only data →
  spec_scan is_set tag buffer (data ++ rest)
  = spec_scan is_set tag (buffer ++ data) rest.
Proof.
  intros Hdata. revert buffer.
  induction Hdata as [|l data Hl _ IH]; intros buffer.
  - by rewrite app_nil_r.
  - cbn [app spec_scan]. unfold is_tag_line in Hl. rewrite Hl.
    by rewrite IH, <- app_assoc.
Qed.

Lemma scan_data_only (is_set : option string → bool) (tag : option string)
    (data buffer : list string) :
  data_only data →
  spec_scan is_set tag buffer data = [(tag, buffer ++ data)].
Proof.
  intros Hdata.
  rewrite <- (app_nil_r data) at 1. by rewrite scan_data.
Qed.

Lemma scan_tag (is_set : option string → bool) (tag : option string)
    (t : string) (rest buffer : list string) :
  is_tag_line t = true →
  spec_scan is_set tag buffer (t :: rest)
  = if is_set tag
    then (tag, buffer) :: spec_scan is_set (Some (Py.strip BRACKETS t)) [] rest
    else spec_scan is_set (Some (Py.strip BRACKETS t)) buffer rest.
Proof. intros Ht. cbn [spec_scan]. unfold is_tag_line in Ht. by rewrite Ht. Qed.

Lemma scan_nonempty (is_set : option string → bool) (tag : option string)
    (lines buffer : list string) :
  spec_scan is_set tag buffer lines ≠ [].
Proof.
  revert tag buffer. induction lines as [|l lines IH]; intros tag buffer.
  - done.
  - cbn [spec_scan]. destruct (Py.startswith "[" l); [| apply IH].
    destruct (is_set tag); [done | apply IH].
Qed.

(** The last section of a file that ends with the lines [body] after a
    tag line [t] is finalized under the tag of [t] and ends with [body]. *)
Lemma scan_last (is_set : option string → bool) (t : string)
    (before body : list string) (tag : option string) (buffer : list string) :
  is_tag_line t = true → data_only body →
  ∃ sections kept,
    spec_scan is_set tag buffer (before ++ t :: body)
    = sections ++ [(Some (Py.strip BRACKETS t), kept ++ body)].
Proof.
  intros Ht Hbody. revert tag buffer.
  induction before as [|l before IH]; intros tag buffer.
  - cbn [app]. rewrite scan_tag by done.
    destruct (is_set tag).
    + exists [(tag, buffer)], []. by rewrite scan_data_only.
    + exists [], buffer. by rewrite scan_data_only.
  - cbn [app spec_scan]. destruct (Py.startswith "[" l).
    + destruct (is_set tag).
      * destruct (IH (Some (Py.strip BRACKETS l)) []) as (ss & kept & ->).
        by exists ((tag, buffer) :: ss), kept.
      * apply IH.
    + apply IH.
Qed.

(** Once a tag is defined, every section that follows has a defined tag. *)
Lemma scan_keys_defined (is_set : option string → bool) (x : string)
    (lines buffer : list string) :
  Forall (fun s => tag_defined s.1 = true)
    (spec_scan is_set (Some x) buffer lines).
Proof.
  revert x buffer. induction lines as [|l lines IH]; intros x buffer.
  - by repeat constructor.
  - cbn [spec_scan]. destruct (Py.startswith "[" l); [| apply IH].
    destruct (is_set (Some x)); [| apply IH].
    constructor; [done | apply IH].
Qed.

Lemma scan_length (is_set : option string → bool) (tag : option string)
    (lines buffer : list string) :
  length (spec_scan is_set tag buffer lines) ≤ S (length (tag_lines lines)).
Proof.
  revert tag buffer. induction lines as [|l lines IH]; intros tag buffer.
  - done.
  - cbn [spec_scan]. unfold tag_lines. rewrite filter_cons.
    case_decide as Hl; unfold is_tag_line in Hl.
    + rewrite Hl. cbn [length].
      destruct (is_set tag); cbn [length].
      * specialize (IH (Some (Py.strip BRACKETS l)) []).
        unfold tag_lines in IH. lia.
      * specialize (IH (Some (Py.strip BRACKETS l)) buffer).
        unfold tag_lines in IH. lia.
    + apply not_true_is_false in Hl. rewrite Hl. apply IH.
Qed.

(** While only tag lines are read, nothing is buffered. *)
Lemma scan_tags_only (is_set : option string → bool) (tag : option string)
    (lines : list string) :
  Forall (fun l => is_tag_line l = true) lines →
  Forall (fun s => s.2 = []) (spec_scan is_set tag [] lines).
Proof.
  intros Htags. revert tag.
  induction Htags as [|l lines Hl _ IH]; intros tag.
  - by repeat constructor.
  - rewrite scan_tag by done.
    destruct (is_set tag); [constructor; [done |] |]; apply IH.
Qed.

(** *** Facts about storing the sections *)

Lemma store_app (tables : dict DataFrame)
    (xs ys : list (option string * list string)) :
  spec_store tables (xs ++ ys)
  = (tables' ← spec_store tables xs; spec_store tables' ys).
Proof.
  revert tables. induction xs as [|x xs IH]; intros tables; [done |].
  cbn [app spec_store].
  destruct (spec_finalize tables x) as [tables'|e]; [| done].
  step_result. apply IH.
Qed.

Lemma dict_get_set {V} (k : option string) (v : V) (d : dict V) :
  dict_get k (dict_set k v d) = Some v.
Proof.
  induction d as [|[k' v'] d IH]; simpl.
  - by rewrite decide_True.
  - destruct (decide (k = k')) as [->|Hne]; simpl.
    + by rewrite decide_True.
    + by rewrite decide_False.
Qed.

Lemma dict_get_set_ne {V} (k k' : option string) (v : V) (d : dict V) :
  k ≠ k' → dict_get k (dict_set k' v d) = dict_get k d.
Proof.
  intros Hne. induction d as [|[k'' v''] d IH]; simpl.
  - by rewrite decide_False.
  - destruct (decide (k' = k'')) as [->|Hne']; simpl.
    + by rewrite !decide_False.
    + destruct (decide (k = k'')); [done | apply IH].
Qed.

Lemma dict_set_length {V} (k : option string) (v : V) (d : dict V) :
  length (dict_set k v d) ≤ S (length d).
Proof.
  induction d as [|[k' v'] d IH]; simpl; [lia |].
  destruct (decide (k = k')); simpl; lia.
Qed.

Lemma store_length (sections : list (option string * list string))
    (tables tables' : dict DataFrame) :
  spec_store tables sections = Ok tables' →
  length tables' ≤ length tables + length sections.
Proof.
  revert tables. induction sections as [|s ss IH]; intros tables.
  - intros [= <-]. simpl. lia.
  - cbn [spec_store]. unfold spec_finalize.
    destruct (read_csv (Py.concat s.2)) as [df|e]; [| done].
    step_result. intros Hst. apply IH in Hst.
    pose proof (dict_set_length s.1 df tables). simpl. lia.
Qed.

Lemma store_none (sections : list (option string * list string))
    (tables tables' : dict DataFrame) :
  Forall (fun s => tag_defined s.1 = true) sections →
  dict_get None tables = None →
  spec_store tables sections = Ok tables' →
  dict_get None tables' = None.
Proof.
  intros Hkeys. revert tables.
  induction Hkeys as [|s ss Hs _ IH]; intros tables Hnone.
  - by intros [= <-].
  - cbn [spec_store]. unfold spec_finalize.
    destruct (read_csv (Py.concat s.2)) as [df|e]; [| done].
    step_result. apply IH.
    rewrite dict_get_set_ne; [done |].
    by destruct s.1.
Qed.

(** A section without buffered text cannot be stored when the parser
    rejects the empty text. *)
Lemma store_empty_section (e0 : exn) (tables : dict DataFrame)
    (sections : list (option string * list string)) :
  read_csv "" = Raise e0 →
  Exists (fun s => s.2 = []) sections →
  ∃ e, spec_store tables sections = Raise e.
Proof.
  intros Hempty Hex. revert tables.
  induction Hex as [s ss Hs|s ss _ IH]; intros tables.
  - cbn [spec_store]. unfold spec_finalize. rewrite Hs.
    cbn [Py.concat]. rewrite Hempty. by exists e0.
  - cbn [spec_store].
    destruct (spec_finalize tables s) as [tables'|e]; [| by exists e].
    step_result. apply IH.
Qed.

(** *** The state of the loop at end of file *)









End SegmenterFacts.

Section SegmenterClaims.
Context {DataFrame : Type} `{!Tabular DataFrame}.

(** C1 (amended).  For every input text file the parsing loop of the
    Segmenter is the state machine of the specification, a tag counting as
    set when it is defined and not empty: on a line that begins with the
    open bracket, if such a tag is set the buffered text is finalized under
    it and the buffer is reset; the tag becomes the line stripped of
    brackets and newline and the line is added to no buffer; every other
    line is appended verbatim; after the last line the buffer is finalized
    once under the current tag.  A section that fails to parse aborts. *)
Theorem segmenter_state_machine (lines : list string) :
  parse_sections lines = spec_parse tag_nonempty lines.
Proof. apply parse_sections_scan. Qed.

(** C3 (amended).  A file without any section-tag line yields the parse of
    its entire content as the one table, keyed by the undefined tag; if
    that parse fails, its error is the outcome and there is no table. *)
Theorem no_tag_file_single_table (content : string) :
  data_only (Py.readlines content) →
  parse_sections (Py.readlines content)
  = match read_csv content with
    | Ok df => Ok [(None, df)]
    | Raise e => Raise e
    end.
Proof.
  intros Hdata. rewrite parse_sections_scan. unfold spec_parse.
  rewrite scan_data_only by done.
  cbn [spec_store app]. unfold spec_finalize. cbn [fst snd].
  rewrite concat_readlines.
  by destruct (read_csv content).
Qed.

(** C5.  When the first line of a file is a section-tag line, reading it
    parses nothing and stores nothing; a tag line read while no tag is set
    only sets the tag; no table of the file is keyed by the undefined tag,
    and there are at most as many tables as tag lines. *)
Theorem first_line_tag_no_leading_table (t : string) (rest : list string) :
  is_tag_line t = true →
  seg_line seg_init t = Ok (SegState "" (Some (Py.strip BRACKETS t)) []) ∧
  (∀ st line,
      is_tag_line line = true → write_key st = None →
      seg_line st line
      = Ok (SegState (fio st) (Some (Py.strip BRACKETS line)) (dfs st))) ∧
  (∀ tables,
      parse_sections (t :: rest) = Ok tables →
      dict_get None tables = None ∧
      length tables ≤ length (tag_lines (t :: rest))).
Proof.
  intros Ht. split; [| split].
  - unfold seg_line. unfold is_tag_line in Ht. by rewrite Ht.
  - intros st line Hline Hkey. unfold seg_line, flush_section.
    unfold is_tag_line in Hline. by rewrite Hline, Hkey.
  - intros tables. rewrite parse_sections_scan. unfold spec_parse.
    rewrite scan_tag by done. cbn [tag_nonempty].
    intros Hst. split.
    + apply (store_none _ [] tables) in Hst; [done | | done].
      apply scan_keys_defined.
    + apply store_length in Hst.
      pose proof (scan_length tag_nonempty (Some (Py.strip BRACKETS t)) rest []).
      unfold tag_lines in *. rewrite filter_cons, decide_True by done.
      cbn [length] in *. lia.
Qed.

(** C4 (amended).  A file with exactly two section-tag lines, whose tags
    differ and the first of which is not empty, and whose two sections
    parse, yields exactly two tables; the second holds all the lines after
    the second tag line.  In general the table stored under the last tag
    is the parse of a text that ends with every line after that tag line. *)
Theorem two_sections_two_tables
    (pre b1 b2 : list string) (t1 t2 : string) (df1 df2 : DataFrame)
    (before body : list string) (t : string) (tables : dict DataFrame) :
  data_only pre → data_only b1 → data_only b2 →
  is_tag_line t1 = true → is_tag_line t2 = true →
  Py.strip BRACKETS t1 ≠ "" →
  Py.strip BRACKETS t1 ≠ Py.strip BRACKETS t2 →
  read_csv (Py.concat (pre ++ b1)) = Ok df1 →
  read_csv (Py.concat b2) = Ok df2 →
  is_tag_line t = true → data_only body →
  parse_sections (before ++ t :: body) = Ok tables →
  parse_sections (pre ++ t1 :: b1 ++ t2 :: b2)
  = Ok [(Some (Py.strip BRACKETS t1), df1); (Some (Py.strip BRACKETS t2), df2)] ∧
  ∃ kept df,
    read_csv (Py.concat (kept ++ body)) = Ok df ∧
    dict_get (Some (Py.strip BRACKETS t)) tables = Some df.
Proof.
  intros Hpre Hb1 Hb2 Ht1 Ht2 Hne1 Hne12 Hdf1 Hdf2 Ht Hbody Hparse. split.
  - rewrite parse_sections_scan. unfold spec_parse.
    rewrite scan_data by done. rewrite scan_tag by done.
    cbn [tag_nonempty app].
    rewrite scan_data by done. rewrite scan_tag by done.
    cbn [tag_nonempty]. rewrite bool_decide_eq_false_2 by done.
    cbn [negb]. rewrite scan_data_only by done.
    cbn [spec_store app]. unfold spec_finalize. cbn [fst snd].
    rewrite Hdf1. step_result. rewrite Hdf2. step_result.
    cbn [dict_set]. rewrite decide_False; [done |].
    intros [= Heq]. by apply Hne12.
  - rewrite parse_sections_scan in Hparse. unfold spec_parse in Hparse.
    destruct (scan_last tag_nonempty t before body None [] Ht Hbody)
      as (ss & kept & Hscan).
    rewrite Hscan, store_app in Hparse.
    destruct (spec_store [] ss) as [tables0|e]; [| done].
    step_result. cbn [spec_store] in Hparse. unfold spec_finalize in Hparse.
    cbn [fst snd] in Hparse.
    destruct (read_csv (Py.concat (kept ++ body))) as [df|e] eqn:Hdf; [| done].
    step_result. injection Hparse as <-.
    exists kept, df. split; [done |]. apply dict_get_set.
Qed.


(** C9.  A line is treated as a section-tag line exactly when its first
    character is the open bracket, closing bracket or not; its tag is the
    line without a prefix and a suffix made of brackets and newlines, with
    no such character left at either end. *)
Theorem tag_line_recognition (st : seg_state) (line : string) :
  (first_char line = Some "["%char →
   seg_line st line
   = (st' ← flush_section st;
      mret (SegState (fio st') (Some (Py.strip BRACKETS line)) (dfs st')))) ∧
  (first_char line ≠ Some "["%char →
   seg_line st line = Ok (SegState (fio st +:+ line) (write_key st) (dfs st))) ∧
  (∃ pre suf,
      line = pre +:+ Py.strip BRACKETS line +:+ suf ∧
      all_in BRACKETS pre = true ∧ all_in BRACKETS suf = true ∧
      clean_ends BRACKETS (Py.strip BRACKETS line)) ∧
  Py.strip BRACKETS "[[X]]" = "X" ∧
  Py.strip BRACKETS "[X" = "X" ∧
  Py.strip BRACKETS (Py.lit "[[X]]\n") = "X" ∧
  Py.strip BRACKETS (Py.lit "[X\n") = "X".
Proof.
  split; [| split; [| split]].
  - intros Hfirst. apply startswith_bracket in Hfirst.
    unfold seg_line. by rewrite Hfirst.
  - intros Hfirst. unfold seg_line.
    destruct (Py.startswith "[" line) eqn:Hs; [| done].
    by apply startswith_bracket in Hs.
  - apply strip_spec.
  - by vm_compute.
Qed.

End SegmenterClaims.

(** ** The Segmenter on concrete files, with the pandas model *)

Section PandasFacts.
Import pandas.

Lemma select_keep (labels cols : list string) (c : string) :
  c ∈ select (map (fun c => bool_decide (c ∉ labels)) cols) cols
  ↔ c ∈ cols ∧ c ∉ labels.
Proof.
  induction cols as [|x cols IH]; simpl.
  - split; [by intros ?%elem_of_nil | by intros [?%elem_of_nil _]].
  - case_bool_decide as Hx.
    + rewrite !elem_of_cons, IH. split.
      * intros [->|[Hc Hl]]; [split; [by left | done] | split; [by right | done]].
      * intros [[->|Hc] Hl]; [by left | by right].
    + rewrite IH, elem_of_cons. split.
      * intros [Hc Hl]. split; [by right | done].
      * intros [[Heq|Hc] Hl]; [| done].
        subst. by destruct Hl.
Qed.

(** When every label names a column, [drop] removes exactly the labelled
    columns; otherwise it raises. *)
Lemma drop_present (labels : list string) (df : DataFrame) :
  Forall (fun l => l ∈ columns df) labels →
  ∃ df', drop labels df = Ok df' ∧
         ∀ c, c ∈ columns df' ↔ c ∈ columns df ∧ c ∉ labels.
Proof.
  intros Hall. unfold drop.
  destruct (filter (fun l => l ∉ columns df) labels) as [|m ms] eqn:Hf.
  - eexists. split; [done |]. intros c. simpl. apply select_keep.
  - assert (Hm : m ∈ filter (fun l => l ∉ columns df) labels)
      by (rewrite Hf; apply list_elem_of_here).
    apply list_elem_of_filter in Hm as [Hno Hin].
    rewrite Forall_forall in Hall. by apply Hall in Hin.
Qed.

Lemma drop_missing (labels : list string) (df : DataFrame) (l : string) :
  l ∈ labels → l ∉ columns df → ∃ ms, drop labels df = Raise (KeyError ms).
Proof.
  intros Hin Hno. unfold drop.
  destruct (filter (fun l => l ∉ columns df) labels) as [|m ms] eqn:Hf.
  - assert (Hl : l ∈ filter (fun l => l ∉ columns df) labels)
      by (by apply list_elem_of_filter).
    rewrite Hf in Hl. by apply elem_of_nil in Hl.
  - by eexists.
Qed.

End PandasFacts.

Section ConcreteFiles.
Import pandas Files.

(** C1, as stated, fails on a file whose first tag is empty: with the tag
    set to the empty text, the second tag line finalizes nothing and the
    buffer is kept, so one table holds the lines of both sections. *)
Lemma empty_tag_is_not_finalized :
  parse_sections (Py.readlines empty_tag)
  = Ok [(Some "X", {| columns := ["a"; "b"]; rows := [["c"; "d"]] |})] ∧
  spec_parse tag_defined (Py.readlines empty_tag)
  = Ok [(Some "", {| columns := ["a"; "b"]; rows := [] |});
        (Some "X", {| columns := ["c"; "d"]; rows := [] |})] ∧
  parse_sections (Py.readlines empty_tag)
  ≠ spec_parse tag_defined (Py.readlines empty_tag).
Proof. by vm_compute. Qed.

(** C2, as stated, fails: on the synthetic file the reduction raises and
    no reduced table is written. *)
Lemma synthetic_file_no_reduced_table :
  (processed synthetic).1
  = Raise (KeyError ["Ontology_Component"; "Ontology_Process";
                     "Ontology_Function"; "Synonyms"; "Obsolete_Probe_Id"]) ∧
  (processed synthetic).2 !! "processed/GSE68849/GPL10558/Probes_reduced.tsv"
  = None.
Proof. by vm_compute. Qed.

(** C2 (amended).  On the synthetic file the Segmenter parses exactly two
    tables, keyed Header and Probes, and writes both; the reduction then
    raises because five of the columns it removes are absent, and no
    reduced table is written.  On the same file with all seven columns
    present the reduced table is written and holds the ID column only.  In
    general the reduction succeeds exactly when the seven columns are
    present, and it keeps every other column. *)
Theorem synthetic_file_tables :
  parse_sections (Py.readlines synthetic)
  = Ok [(Some "Header", {| columns := ["a"; "b"]; rows := [["1"; "2"]] |});
        (Some "Probes",
         {| columns := ["ID"; "Definition"; "Probe_Sequence"];
            rows := [["1"; "foo"; "ACGT"]] |})] ∧
  (processed synthetic).1
  = Raise (KeyError ["Ontology_Component"; "Ontology_Process";
                     "Ontology_Function"; "Synonyms"; "Obsolete_Probe_Id"]) ∧
  (processed synthetic).2 !! "processed/GSE68849/GPL10558/GPL10558_Header.tsv"
  = Some (File (Py.lit "a\tb\n1\t2\n")) ∧
  (processed synthetic).2 !! "processed/GSE68849/GPL10558/GPL10558_Probes.tsv"
  = Some (File (Py.lit "ID\tDefinition\tProbe_Sequence\n1\tfoo\tACGT\n")) ∧
  (processed synthetic).2 !! "processed/GSE68849/GPL10558/Probes_reduced.tsv"
  = None ∧
  (processed synthetic_full).1 = Ok tt ∧
  (processed synthetic_full).2 !! "processed/GSE68849/GPL10558/Probes_reduced.tsv"
  = Some (File (Py.lit "ID\n1\n")) ∧
  (∀ df : DataFrame,
      Forall (fun l => l ∈ columns df) PROBES_DROPPED →
      ∃ df', drop PROBES_DROPPED df = Ok df' ∧
             ∀ c, c ∈ columns df' ↔ c ∈ columns df ∧ c ∉ PROBES_DROPPED) ∧
  (∀ (df : DataFrame) (l : string),
      l ∈ PROBES_DROPPED → l ∉ columns df →
      ∃ ms, drop PROBES_DROPPED df = Raise (KeyError ms)).
Proof.
  split_and!; try by vm_compute.
  - intros df. apply drop_present.
  - intros df l. apply drop_missing.
Qed.

(** C3, as stated, fails on the empty file: it has no tag line and yields
    no table, the parser having no columns to parse. *)
Lemma empty_file_no_table :
  data_only (Py.readlines "") ∧
  parse_sections (Py.readlines "") = Raise EmptyDataError ∧
  ¬ ∃ df : DataFrame, parse_sections (Py.readlines "") = Ok [(None, df)].
Proof.
  split; [constructor |]. split; [by vm_compute |].
  intros [df Hdf]. by vm_compute in Hdf.
Qed.

Lemma no_tag_file_single_table_witness :
  data_only (Py.readlines plain) ∧
  parse_sections (Py.readlines plain)
  = Ok [(None, {| columns := ["a"; "b"]; rows := [["1"; "2"]] |})].
Proof.
  assert (Hdata : data_only (Py.readlines plain))
    by (vm_compute; repeat constructor).
  split; [exact Hdata |].
  rewrite (no_tag_file_single_table plain Hdata). reflexivity.
Defined.

(** C4, as stated, fails on a file whose two tag lines carry the same tag:
    the second table replaces the first, and one table results. *)
Lemma same_tag_one_table :
  length (tag_lines (Py.readlines same_tag)) = 2 ∧
  parse_sections (Py.readlines same_tag)
  = Ok [(Some "A", {| columns := ["y"]; rows := [["2"]] |})] ∧
  ¬ ∃ tables : dict DataFrame,
      parse_sections (Py.readlines same_tag) = Ok tables ∧ length tables = 2.
Proof.
  split; [by vm_compute |]. split; [by vm_compute |].
  intros (tables & Hparse & Hlen).
  vm_compute in Hparse. injection Hparse as <-. discriminate Hlen.
Qed.


(** A final tag line read while the empty tag is in force keeps the
    buffer, which the empty tag line has left empty: the file aborts. *)
Example final_tag_after_empty_tag_aborts :
  buffered None [] (Py.readlines emptied_then_tag) = (Some "B", []) ∧
  parse_sections (Py.readlines emptied_then_tag) = Raise EmptyDataError ∧
  processed emptied_then_tag = (Raise EmptyDataError, disk emptied_then_tag).
Proof. by vm_compute. Qed.

End ConcreteFiles.

(** ** Paths *)

Section PathFacts.
Import os_path.

Lemma rfind_lt (c : ascii) (s : string) (i : nat) :
  rfind c s = Some i → i < String.length s.
Proof.
  revert i. induction s as [|a s IH]; intros i; simpl; [discriminate |].
  destruct (rfind c s) as [j|].
  - intros [= <-]. specialize (IH j eq_refl). lia.
  - destruct (decide (a = c)); [| discriminate]. intros [= <-]. lia.
Qed.

Lemma rfind_app (c : ascii) (a b : string) :
  rfind c (a +:+ b)
  = match rfind c b with
    | Some i => Some (String.length a + i)
    | None => rfind c a
    end.
Proof.
  induction a as [|x a IH].
  - rewrite app_nil_s. by destruct (rfind c b).
  - rewrite app_cons_s. simpl. rewrite IH.
    by destruct (rfind c b).
Qed.

Lemma take_app_length (a b : string) : take (String.length a) (a +:+ b) = a.
Proof.
  induction a as [|x a IH]; [by destruct b |].
  rewrite app_cons_s. simpl. by rewrite IH.
Qed.

Lemma drop_app_plus (a b : string) (n : nat) :
  drop (String.length a + n) (a +:+ b) = drop n b.
Proof. induction a as [|x a IH]; [done |]. by rewrite app_cons_s. Qed.

Lemma drop_app_length (a b : string) : drop (String.length a) (a +:+ b) = b.
Proof.
  rewrite <- (Nat.add_0_r (String.length a)), drop_app_plus.
  by destruct b.
Qed.

Lemma drop_app_le (a b : string) (n : nat) :
  n ≤ String.length a → drop n (a +:+ b) = drop n a +:+ b.
Proof.
  revert n. induction a as [|x a IH]; intros n Hn.
  - simpl in Hn. assert (n = 0) as -> by lia. by destruct b.
  - destruct n as [|n]; [done |]. rewrite app_cons_s. simpl.
    apply IH. simpl in Hn. lia.
Qed.

Lemma length_app_s (a b : string) :
  String.length (a +:+ b) = String.length a + String.length b.
Proof.
  induction a as [|x a IH]; [done |].
  rewrite app_cons_s. simpl. by rewrite IH.
Qed.

Lemma endswith_app (p s : string) : Py.endswith p (s +:+ p) = true.
Proof.
  induction s as [|a s IH].
  - rewrite app_nil_s. destruct p; simpl; repeat case_decide; done.
  - rewrite app_cons_s. simpl. by case_decide.
Qed.

Lemma endswith_split (p s : string) :
  Py.endswith p s = true → ∃ s', s = s' +:+ p.
Proof.
  induction s as [|a s IH]; simpl.
  - destruct (decide ("" = p)) as [<-|]; [by exists "" | discriminate].
  - destruct (decide (String a s = p)) as [<-|]; [by exists "" |].
    intros [s' ->]%IH. by exists (String a s').
Qed.

(** The last component of a joined path is that of its second part. *)
Lemma basename_app_slash (a b : string) :
  basename ((a +:+ "/") +:+ b) = basename b.
Proof.
  unfold basename. rewrite rfind_app.
  destruct (rfind "/" b) as [i|] eqn:Hb.
  - replace (S (String.length (a +:+ "/") + i))
      with (String.length (a +:+ "/") + S i) by lia.
    apply drop_app_plus.
  - rewrite rfind_app. change (rfind "/" "/") with (Some 0). cbv iota.
    replace (S (String.length a + 0)) with (String.length (a +:+ "/"))
      by (rewrite length_app_s; simpl; lia).
    apply drop_app_length.
Qed.

Lemma basename_join (a b : string) : basename (join a b) = basename b.
Proof.
  unfold join.
  destruct (Py.startswith "/" b); [done |].
  destruct (decide (a = "")) as [->|_]; [done |].
  destruct (Py.endswith "/" a) eqn:Hend.
  - apply endswith_split in Hend as [a' ->]. apply basename_app_slash.
  - rewrite <- app_assoc_s. apply basename_app_slash.
Qed.

Lemma basename_no_slash (p : string) : rfind "/" (basename p) = None.
Proof.
  unfold basename. destruct (rfind "/" p) as [i|] eqn:Hp; [| done].
  revert i Hp. induction p as [|a p IH]; intros i; simpl; [discriminate |].
  destruct (rfind "/" p) as [j|] eqn:Hj.
  - intros [= <-]. by apply IH.
  - destruct (decide (a = "/"%char)); [| discriminate].
    intros [= <-]. simpl. done.
Qed.

Lemma basename_idem (p : string) : basename (basename p) = basename p.
Proof. unfold basename at 1. by rewrite basename_no_slash. Qed.

Lemma basename_app_ext (stem : string) :
  basename (stem +:+ ".gz") = basename stem +:+ ".gz".
Proof.
  unfold basename. rewrite rfind_app.
  change (rfind "/" ".gz") with (@None nat). cbv iota.
  destruct (rfind "/" stem) as [i|] eqn:Hi; [| done].
  apply drop_app_le. apply rfind_lt in Hi. lia.
Qed.

Lemma get_cons (a : ascii) (s : string) (i : nat) :
  String.get (S i) (String a s) = String.get i s.
Proof. done. Qed.

Lemma has_non_dot_cons (a : ascii) (p : string) (i n : nat) :
  has_non_dot (String a p) (S i) n = has_non_dot p i n.
Proof.
  revert i. induction n as [|n IH]; intros i; [done |].
  cbn [has_non_dot]. rewrite get_cons.
  destruct (String.get i p); [| done].
  destruct (decide _); [apply IH | done].
Qed.

(** The loop of [splitext] over the last component of [s], the extension
    following it: it finds a character other than a dot when there is one. *)
Lemma has_non_dot_app (s t : string) (i : nat) :
  i ≤ String.length s →
  has_non_dot (s +:+ t) i (String.length s - i) = negb (all_in "." (drop i s)).
Proof.
  revert i. induction s as [|a s IH]; intros i Hi.
  - simpl in Hi. by assert (i = 0) as -> by lia.
  - rewrite app_cons_s. destruct i as [|i].
    + cbn [String.length Nat.sub has_non_dot drop all_in Py.char_in].
      cbn [String.get].
      destruct (decide (a = "."%char)) as [->|Hne].
      * rewrite has_non_dot_cons. specialize (IH 0).
        rewrite Nat.sub_0_r in IH. rewrite IH by lia.
        by destruct s.
      * done.
    + cbn [String.length Nat.sub drop]. rewrite has_non_dot_cons.
      apply IH. simpl in Hi. lia.
Qed.

(** A member named [stem.gz] whose last component has a character other
    than a dot before the suffix splits into [stem] and [.gz]. *)
Lemma splitext_gz (stem : string) :
  all_in "." (basename stem) = false →
  splitext (stem +:+ ".gz") = (stem, ".gz").
Proof.
  intros Hdots. unfold splitext.
  rewrite !rfind_app.
  change (rfind "." ".gz") with (Some 0).
  change (rfind "/" ".gz") with (@None nat). cbv iota.
  rewrite Nat.add_0_r.
  unfold basename in Hdots.
  destruct (rfind "/" stem) as [i|] eqn:Hi.
  - apply rfind_lt in Hi.
    rewrite bool_decide_eq_true_2 by lia.
    rewrite has_non_dot_app by lia. rewrite Hdots. cbn [negb andb].
    by rewrite take_app_length, drop_app_length.
  - rewrite bool_decide_eq_true_2 by lia.
    rewrite has_non_dot_app by lia.
    replace (drop 0 stem) with stem by (by destruct stem).
    rewrite Hdots. cbn [negb andb].
    by rewrite take_app_length, drop_app_length.
Qed.

End PathFacts.

(** ** The Unpacker *)

Section UnpackerFacts.
Context `{!Collaborators}.

(** [try: body finally: os.remove(p)]: afterwards no file is at [p];
    nothing at all is there unless the body left a directory; and when the
    body left a file, the outcome is the body's and the file is deleted. *)
Lemma try_finally_remove {A} (body : M A) (p : string) (fs : FS) :
  (∀ c, (try_finally body (os.remove p) fs).2 !! p ≠ Some (File c)) ∧
  ((body fs).2 !! p ≠ Some Dir →
   (try_finally body (os.remove p) fs).2 !! p = None) ∧
  (∀ c, (body fs).2 !! p = Some (File c) →
        try_finally body (os.remove p) fs = ((body fs).1, delete p (body fs).2)).
Proof.
  unfold try_finally, os.remove.
  destruct (body fs) as [r fs1]. cbn [fst snd].
  destruct (fs1 !! p) as [[c|]|] eqn:Hp; cbn [fst snd].
  - rewrite lookup_delete_eq. split_and!; [done | done |].
    by intros c' _.
  - rewrite Hp. split_and!; [done | done | done].
  - rewrite Hp. split_and!; [done | done | done].
Qed.

Lemma writable_insert (p c : string) (fs : FS) :
  writable p fs = Ok tt → writable p (<[p := File c]> fs) = Ok tt.
Proof.
  unfold writable. rewrite lookup_insert_eq.
  case_bool_decide as Hparent; [done |].
  destruct (decide (p = os_path.dirname p)) as [<-|Hne].
  - rewrite lookup_insert_eq.
    destruct (fs !! p) as [[c'|]|]; done.
  - rewrite lookup_insert_ne by done.
    destruct (fs !! os_path.dirname p) as [[c'|]|]; done.
Qed.

(** Decompression leaves a file where the compressed member was. *)
Lemma decompress_keeps_source (gz target c : string) (fs : FS) :
  fs !! gz = Some (File c) →
  ∃ c', (decompress gz target fs).2 !! gz = Some (File c').
Proof.
  intros Hgz. unfold decompress, open_read, open_write. step_M.
  rewrite Hgz.
  destruct (writable target fs) as [[]|e] eqn:Hw; [| by exists c].
  assert (∃ c1, <[target := File ""]> fs !! gz = Some (File c1)) as [c1 Hc1].
  { destruct (decide (target = gz)) as [->|Hne].
    - rewrite lookup_insert_eq. by eexists.
    - rewrite lookup_insert_ne by done. by eexists. }
  rewrite Hc1.
  rewrite (writable_insert _ _ _ Hw).
  assert (∃ c2, <[target := File (gunzip c1).1]> (<[target := File ""]> fs) !! gz
                = Some (File c2)) as [c2 Hc2].
  { destruct (decide (target = gz)) as [->|Hne].
    - rewrite lookup_insert_eq. by eexists.
    - rewrite lookup_insert_ne by done. by eexists. }
  exists c2. by destruct (gunzip c1).2.
Qed.

(** Decompression into a file that can be created, other than the source. *)
Lemma decompress_writable (gz target c : string) (fs : FS) :
  fs !! gz = Some (File c) →
  writable target fs = Ok tt →
  target ≠ gz →
  decompress gz target fs
  = (match (gunzip c).2 with Some e => Raise e | None => Ok tt end,
     <[target := File (gunzip c).1]> fs).
Proof.
  intros Hgz Hw Hne. unfold decompress, open_read, open_write. step_M.
  rewrite Hgz, Hw. rewrite lookup_insert_ne by done. rewrite Hgz.
  rewrite (writable_insert _ _ _ Hw). rewrite insert_insert_eq.
  by destruct (gunzip c).2.
Qed.

(** Whatever the attempt to decompress does, the compressed member is then
    deleted and the outcome is that of the attempt. *)
Lemma process_gzip_file_consumes (gz dir c : string) (fs : FS) :
  fs !! gz = Some (File c) →
  _process_gzip_file gz dir fs
  = ((decompress gz (output_path gz dir) fs).1,
     delete gz (decompress gz (output_path gz dir) fs).2).
Proof.
  intros Hgz. unfold _process_gzip_file, try_log_reraise.
  destruct (decompress_keeps_source gz (output_path gz dir) c fs Hgz) as [c' Hc'].
  by apply (try_finally_remove (decompress gz (output_path gz dir)) gz fs) in Hc'.
Qed.

End UnpackerFacts.

Section UnpackerClaims.
Context `{!Collaborators}.

(** C6.  After the extraction step, whether the archive reader succeeded
    or raised, no file is at the declared output path of the Acquirer;
    nothing at all is there unless the reader left a directory at that
    path; when the archive is still a file after the attempt, it is
    deleted and the outcome of the step is that of the attempt. *)
Theorem archive_removed_after_extraction (dataset_name : string) (fs : FS) :
  (∀ c,
      (extract_archive (output DownloadData dataset_name)
         (output ExtractAndProcessData dataset_name) fs).2
        !! output DownloadData dataset_name ≠ Some (File c)) ∧
  ((tar_extract (output DownloadData dataset_name)
      (output ExtractAndProcessData dataset_name) fs).2
     !! output DownloadData dataset_name ≠ Some Dir →
   (extract_archive (output DownloadData dataset_name)
      (output ExtractAndProcessData dataset_name) fs).2
     !! output DownloadData dataset_name = None) ∧
  (∀ c,
      (tar_extract (output DownloadData dataset_name)
         (output ExtractAndProcessData dataset_name) fs).2
        !! output DownloadData dataset_name = Some (File c) →
      extract_archive (output DownloadData dataset_name)
        (output ExtractAndProcessData dataset_name) fs
      = ((tar_extract (output DownloadData dataset_name)
            (output ExtractAndProcessData dataset_name) fs).1,
         delete (output DownloadData dataset_name)
           (tar_extract (output DownloadData dataset_name)
              (output ExtractAndProcessData dataset_name) fs).2)).
Proof. apply try_finally_remove. Qed.

(** C7.  A member whose name ends in [.gz], extracted as a regular file,
    is decompressed into the file [output_path] inside the directory made
    for it, and is then deleted; when decompression fails its error is the
    outcome, the member is deleted all the same, and the members after it
    are not processed.  Whatever the attempt does, the member is deleted
    and the outcome is that of the attempt.  For a member [stem.gz] the
    directory is named after [stem] and the file after its last
    component. *)
Theorem gzip_member_consumed
    (extract_path item : string) (rest : list string) (fs fs0 : FS)
    (compressed : string) :
  Py.endswith ".gz" item = true →
  ensure_dir (item_dir extract_path item) fs = (Ok tt, fs0) →
  fs0 !! item_path extract_path item = Some (File compressed) →
  writable (output_path (item_path extract_path item) (item_dir extract_path item)) fs0
  = Ok tt →
  output_path (item_path extract_path item) (item_dir extract_path item)
  ≠ item_path extract_path item →
  let gz := item_path extract_path item in
  let target := output_path gz (item_dir extract_path item) in
  let fs1 := delete gz (<[target := File (gunzip compressed).1]> fs0) in
  process_member extract_path item fs
  = (match (gunzip compressed).2 with Some e => Raise e | None => Ok tt end, fs1) ∧
  fs1 !! gz = None ∧
  fs1 !! target = Some (File (gunzip compressed).1) ∧
  for_each (item :: rest) (process_member extract_path) fs
  = match (gunzip compressed).2 with
    | Some e => (Raise e, fs1)
    | None => for_each rest (process_member extract_path) fs1
    end ∧
  (∀ gz' dir c disk,
      disk !! gz' = Some (File c) →
      _process_gzip_file gz' dir disk
      = ((decompress gz' (output_path gz' dir) disk).1,
         delete gz' (decompress gz' (output_path gz' dir) disk).2)) ∧
  (∀ stem,
      item = stem +:+ ".gz" →
      all_in "." (os_path.basename stem) = false →
      item_dir extract_path item = os_path.join extract_path stem ∧
      target = os_path.join (item_dir extract_path item) (os_path.basename stem)).
Proof.
  intros Hgz Hdir Hfile Hw Hne gz target fs1.
  assert (Hmember :
    process_member extract_path item fs
    = (match (gunzip compressed).2 with Some e => Raise e | None => Ok tt end,
       fs1)).
  { unfold process_member. step_M. rewrite Hdir, Hgz.
    rewrite (process_gzip_file_consumes _ _ _ _ Hfile).
    by rewrite (decompress_writable _ _ _ _ Hfile Hw Hne). }
  split_and!.
  - exact Hmember.
  - apply lookup_delete_eq.
  - unfold fs1. rewrite lookup_delete_ne by done. apply lookup_insert_eq.
  - cbn [for_each]. step_M. rewrite Hmember.
    by destruct (gunzip compressed).2.
  - intros gz' dir c disk. apply process_gzip_file_consumes.
  - intros stem -> Hstem. unfold target, gz, output_path, item_dir, item_path.
    rewrite basename_join, basename_app_ext.
    rewrite (splitext_gz stem Hstem).
    rewrite splitext_gz by (by rewrite basename_idem).
    done.
Qed.

End UnpackerClaims.

(** ** The engine *)

Section EngineFacts.
Variable run : Stage → string → M unit.
Variable dataset_name : string.
Variable fs : FS.















End EngineFacts.

Section EngineClaims.
Variable run : Stage → string → M unit.


End EngineClaims.

(** ** The theorems at concrete inputs *)

Section Witnesses.
Import pandas.

Lemma first_line_tag_no_leading_table_witness :
  is_tag_line (Py.lit "[A]\n") = true ∧
  seg_line (DataFrame := DataFrame) seg_init (Py.lit "[A]\n")
  = Ok (SegState "" (Some "A") []).
Proof.
  split; [reflexivity |].
  exact (proj1 (first_line_tag_no_leading_table (DataFrame := DataFrame)
                  (Py.lit "[A]\n") [Py.lit "a\tb\n"] eq_refl)).
Defined.

Lemma two_sections_two_tables_witness :
  Py.readlines Files.synthetic
  = [] ++ Py.lit "[Header]\n" :: [Py.lit "a\tb\n"; Py.lit "1\t2\n"]
       ++ Py.lit "[Probes]\n"
       :: [Py.lit "ID\tDefinition\tProbe_Sequence\n"; Py.lit "1\tfoo\tACGT\n"] ∧
  parse_sections (Py.readlines Files.synthetic)
  = Ok [(Some "Header", {| columns := ["a"; "b"]; rows := [["1"; "2"]] |});
        (Some "Probes",
         {| columns := ["ID"; "Definition"; "Probe_Sequence"];
            rows := [["1"; "foo"; "ACGT"]] |})].
Proof.
  split; [reflexivity |].
  refine (proj1 (two_sections_two_tables (DataFrame := DataFrame)
            [] [Py.lit "a\tb\n"; Py.lit "1\t2\n"]
            [Py.lit "ID\tDefinition\tProbe_Sequence\n"; Py.lit "1\tfoo\tACGT\n"]
            (Py.lit "[Header]\n") (Py.lit "[Probes]\n")
            {| columns := ["a"; "b"]; rows := [["1"; "2"]] |}
            {| columns := ["ID"; "Definition"; "Probe_Sequence"];
               rows := [["1"; "foo"; "ACGT"]] |}
            [] [Py.lit "c\n"] (Py.lit "[T]\n")
            [(Some "T", {| columns := ["c"]; rows := [] |})]
            _ _ _ eq_refl eq_refl _ _ eq_refl eq_refl eq_refl _ eq_refl)).
  - constructor.
  - vm_compute. repeat constructor.
  - vm_compute. repeat constructor.
  - vm_compute. discriminate.
  - vm_compute. discriminate.
  - vm_compute. repeat constructor.
Defined.


Lemma gzip_member_consumed_witness :
  Py.endswith ".gz" Sample.member = true ∧
  process_member Sample.extract_path Sample.member Sample.unpacked
  = (Ok tt,
     delete "extracted/GSE68849/GSM1.txt.gz"
       (<["extracted/GSE68849/GSM1.txt/GSM1.txt" := File (Py.lit "a\tb\n1\t2\n")]>
          (<["extracted/GSE68849/GSM1.txt" := Dir]> Sample.unpacked))).
Proof.
  split; [reflexivity |].
  refine (proj1 (gzip_member_consumed Sample.extract_path Sample.member []
                   Sample.unpacked
                   (<["extracted/GSE68849/GSM1.txt" := Dir]> Sample.unpacked)
                   Sample.archive eq_refl _ _ _ _)).
  - vm_compute. reflexivity.
  - vm_compute. reflexivity.
  - vm_compute. reflexivity.
  - vm_compute. discriminate.
Defined.


End Witnesses.

(** ** Runs of the program on the sample disk *)

Section Runs.
Import pandas.

(** Member names as the Unpacker splits them. *)
Example member_paths :
  item_dir "extracted/GSE68849" "GSM1657871_1-1.txt.gz"
  = "extracted/GSE68849/GSM1657871_1-1.txt" ∧
  output_path (item_path "extracted/GSE68849" "GSM1657871_1-1.txt.gz")
    (item_dir "extracted/GSE68849" "GSM1657871_1-1.txt.gz")
  = "extracted/GSE68849/GSM1657871_1-1.txt/GSM1657871_1-1.txt" ∧
  os_path.splitext ".gz" = (".gz", "") ∧
  os_path.splitext "a.b/c" = ("a.b/c", "").
Proof. by vm_compute. Qed.

(** A corrupt archive: the reader raises, and the archive is gone. *)
Example corrupt_archive_is_removed :
  extract_archive Sample.tar_path Sample.extract_path (Sample.disk "corrupt")
  = (Raise (OtherError "ReadError"), delete Sample.tar_path (Sample.disk "corrupt")).
Proof. by vm_compute. Qed.

(** A member that does not decompress: the error propagates, its partial
    output stays and the member is gone. *)
Example bad_member_is_removed :
  let disk := <[item_path Sample.extract_path Sample.member := File "corrupt"]>
                Sample.unpacked in
  (process_member Sample.extract_path Sample.member disk).1
  = Raise (OtherError "BadGzipFile") ∧
  (process_member Sample.extract_path Sample.member disk).2
    !! item_path Sample.extract_path Sample.member = None ∧
  (process_member Sample.extract_path Sample.member disk).2
    !! "extracted/GSE68849/GSM1.txt/GSM1.txt" = Some (File "").
Proof. by vm_compute. Qed.

(** A first run on an empty disk starts the three stages in order and
    leaves the table of the member; a second run on the disk it leaves
    starts none, although the archive is gone. *)
Example pipeline_twice :
  let first := pipeline (DataFrame := DataFrame) Files.dataset_name ∅ in
  first.1 = [DownloadData; ExtractAndProcessData; SegmentTables] ∧
  first.2.1 = Ok tt ∧
  first.2.2 !! "processed/GSE68849/GSM1.txt/GSM1_None.tsv"
  = Some (File (Py.lit "a\tb\n1\t2\n")) ∧
  first.2.2 !! output DownloadData Files.dataset_name = None ∧
  pipeline (DataFrame := DataFrame) Files.dataset_name first.2.2
  = ([], (Ok tt, first.2.2)).
Proof. by vm_compute. Qed.

(** With the extraction directory in place and nothing else, only the
    Segmenter runs: the Acquirer is not started though its output is
    missing. *)
Example only_segmenter_runs :
  (pipeline (DataFrame := DataFrame) Files.dataset_name
     {[ "extracted" := Dir; "extracted/GSE68849" := Dir ]}).1
  = [SegmentTables].
Proof. by vm_compute. Qed.

End Runs.

(** * Further properties of the program *)

(** ** The parsing loop (lines 111-124) *)

Section ParsingMore.
Context {DataFrame : Type} `{!Tabular DataFrame}.

(** Assigning to a key that is absent appends it. *)
Lemma dict_set_fresh {V} (k : option string) (v : V) (d : dict V) :
  k ∉ d.*1 → dict_set k v d = d ++ [(k, v)].
Proof.
  induction d as [|[k' v'] d IH]; intros Hk; simpl; [done |].
  rewrite fmap_cons, not_elem_of_cons in Hk. destruct Hk as [Hne Hk].
  rewrite decide_False by done. by rewrite IH.
Qed.

Lemma section_lines_cons (t : string) (body : list string)
    (secs : list (string * list string)) :
  section_lines ((t, body) :: secs) = t :: body ++ section_lines secs.
Proof. done. Qed.

(** The scan of a file made of well-formed sections, read with a non-empty
    tag in force, finalizes the buffer in hand and then each section. *)
Lemma scan_sections (secs : list (string * list string)) (x : string)
    (buffer : list string) :
  x ≠ "" → Forall well_formed_section secs →
  spec_scan tag_nonempty (Some x) buffer (section_lines secs)
  = (Some x, buffer) :: map (fun s => (section_key s, s.2)) secs.
Proof.
  intros Hx Hsecs. revert x buffer Hx.
  induction Hsecs as [|[t body] secs (Ht & Hne & Hbody) _ IH]; intros x buffer Hx.
  - done.
  - cbn [fst snd] in *. rewrite section_lines_cons.
    rewrite scan_tag by done. cbn [tag_nonempty].
    rewrite bool_decide_eq_false_2 by done. cbn [negb].
    rewrite scan_data by done. cbn [app map]. f_equal.
    by apply IH.
Qed.

Lemma store_fresh (secs : list (string * list string)) (frames : list DataFrame)
    (tables : dict DataFrame) :
  NoDup (tables.*1 ++ map section_key secs) →
  Forall2 (fun s df => read_csv (Py.concat s.2) = Ok df) secs frames →
  spec_store tables (map (fun s => (section_key s, s.2)) secs)
  = Ok (tables ++ zip (map section_key secs) frames).
Proof.
  intros Hdup Hparse. revert tables Hdup.
  induction Hparse as [|s df secs frames Hs _ IH]; intros tables Hdup.
  - cbn. by rewrite app_nil_r.
  - cbn [map spec_store]. unfold spec_finalize. cbn [fst snd].
    rewrite Hs. step_result.
    cbn [map] in Hdup. apply NoDup_app in Hdup as (Hd1 & Hd2 & Hd3).
    apply NoDup_cons in Hd3 as [Hs1 Hs2].
    rewrite dict_set_fresh.
    + rewrite IH.
      * cbn [zip zip_with]. by rewrite <- app_assoc.
      * rewrite fmap_app. cbn. rewrite <- app_assoc. cbn.
        apply NoDup_app. split_and!; [done | | by apply NoDup_cons].
        intros k Hk. apply Hd2 in Hk. done.
    + intros Hin. apply Hd2 in Hin. apply Hin. apply list_elem_of_here.
Qed.

(** X1.  A file that is a sequence of sections, each a tag line with a
    non-empty tag followed by data lines, the tags pairwise distinct and the
    text of each section accepted by the parser, yields exactly one table per
    section, in file order, keyed by the section's tag and holding the parse
    of the lines between its tag line and the next. *)
Theorem sections_become_tables
    (secs : list (string * list string)) (frames : list DataFrame) :
  secs ≠ [] →
  Forall well_formed_section secs →
  NoDup (map section_key secs) →
  Forall2 (fun s df => read_csv (Py.concat s.2) = Ok df) secs frames →
  parse_sections (section_lines secs) = Ok (zip (map section_key secs) frames).
Proof.
  intros Hne Hsecs Hdup Hparse.
  rewrite parse_sections_scan. unfold spec_parse.
  destruct secs as [|[t body] secs]; [done |].
  pose proof Hsecs as Hall.
  apply Forall_cons in Hsecs as [(Ht & Htag & Hbody) Hrest].
  cbn [fst snd] in *. rewrite section_lines_cons.
  rewrite scan_tag by done. cbn [tag_nonempty].
  rewrite scan_data by done.
  rewrite (scan_sections secs _ _ Htag Hrest).
  change ((Some (Py.strip BRACKETS t), [] ++ body)
            :: map (fun s => (section_key s, s.2)) secs)
    with (map (fun s => (section_key s, s.2)) ((t, body) :: secs)).
  by rewrite (store_fresh _ frames []).
Qed.

(** X2.  Data lines that precede the first tag line are not dropped: they
    are parsed as the first lines of the first section, as if they came
    right after its tag line. *)
Theorem leading_lines_join_first_section
    (pre rest : list string) (t : string) :
  data_only pre → is_tag_line t = true →
  parse_sections (pre ++ t :: rest) = parse_sections (t :: pre ++ rest).
Proof.
  intros Hpre Ht. rewrite !parse_sections_scan. unfold spec_parse.
  rewrite scan_data by done. rewrite !scan_tag by done.
  cbn [tag_nonempty app]. by rewrite scan_data by done.
Qed.

Lemma scan_partition (is_set : option string → bool) (tag : option string)
    (lines buffer : list string) :
  flat_map snd (spec_scan is_set tag buffer lines) = buffer ++ data_lines lines.
Proof.
  revert tag buffer. induction lines as [|l lines IH]; intros tag buffer.
  - cbn. by rewrite app_nil_r.
  - cbn [spec_scan]. unfold data_lines. rewrite filter_cons.
    case_decide as Hl; unfold is_tag_line in Hl.
    + rewrite Hl, IH. by rewrite <- app_assoc.
    + apply not_false_is_true in Hl. rewrite Hl.
      destruct (is_set tag); cbn [flat_map snd]; by rewrite IH.
Qed.






(** The keys of the scan are the tag in force or the tags of tag lines. *)
Lemma scan_keys (is_set : option string → bool) (tag : option string)
    (lines buffer : list string) (k : option string) :
  k ∈ (spec_scan is_set tag buffer lines).*1 →
  k = tag ∨ ∃ t, t ∈ tag_lines lines ∧ k = Some (Py.strip BRACKETS t).
Proof.
  revert tag buffer. induction lines as [|l lines IH]; intros tag buffer.
  - cbn. intros ->%list_elem_of_singleton. by left.
  - cbn [spec_scan]. unfold tag_lines. rewrite filter_cons.
    case_decide as Hl; unfold is_tag_line in Hl.
    + rewrite Hl.
      assert (Hrest : ∀ buf,
                 k ∈ (spec_scan is_set (Some (Py.strip BRACKETS l)) buf lines).*1 →
                 ∃ t, t ∈ l :: filter (λ l0, is_tag_line l0 = true) lines
                      ∧ k = Some (Py.strip BRACKETS t)).
      { intros buf [->|(t & Hin & ->)]%IH.
        - exists l. split; [apply list_elem_of_here | done].
        - exists t. split; [by apply list_elem_of_further | done]. }
      destruct (is_set tag).
      * rewrite fmap_cons, elem_of_cons. intros [->|Hk]; [by left |].
        right. by eapply Hrest.
      * intros Hk. right. by eapply Hrest.
    + apply not_true_is_false in Hl. rewrite Hl. apply IH.
Qed.

(** Once a tag line is read, no section is keyed by the undefined tag. *)
Lemma scan_after_tag (lines buffer : list string) :
  tag_lines lines ≠ [] →
  Forall (fun s => tag_defined s.1 = true)
    (spec_scan tag_nonempty None buffer lines).
Proof.
  revert buffer. induction lines as [|l lines IH]; intros buffer; [done |].
  cbn [spec_scan]. unfold tag_lines. rewrite filter_cons.
  case_decide as Hl; unfold is_tag_line in Hl.
  - rewrite Hl. intros _. cbn [tag_nonempty]. apply scan_keys_defined.
  - apply not_true_is_false in Hl. rewrite Hl. apply IH.
Qed.

Lemma store_keys (sections : list (option string * list string))
    (tables tables' : dict DataFrame) (k : option string) :
  spec_store tables sections = Ok tables' →
  k ∈ tables'.*1 → k ∈ tables.*1 ∨ k ∈ sections.*1.
Proof.
  revert tables. induction sections as [|s ss IH]; intros tables.
  - intros [= <-]. by left.
  - cbn [spec_store]. unfold spec_finalize.
    destruct (read_csv (Py.concat s.2)) as [df|e]; [| done].
    step_result. intros Hst Hk.
    destruct (IH _ Hst Hk) as [Hin|Hin].
    + assert (Hset : k ∈ (dict_set s.1 df tables).*1 → k = s.1 ∨ k ∈ tables.*1).
      { clear. induction tables as [|[k' v'] tables IHt]; simpl.
        - intros ->%list_elem_of_singleton. by left.
        - destruct (decide (s.1 = k')) as [<-|Hne]; simpl.
          + rewrite !elem_of_cons. intros [->|Hk]; [by left | right; by right].
          + rewrite !elem_of_cons. intros [->|Hk]; [right; by left |].
            destruct (IHt Hk) as [->|Hk']; [by left | right; by right]. }
      destruct (Hset Hin) as [->|Hk'].
      * right. rewrite fmap_cons. apply list_elem_of_here.
      * by left.
    + right. rewrite fmap_cons. by apply list_elem_of_further.
Qed.

(** X4.  The key of every table is the tag of some tag line of the file,
    or the undefined tag; the undefined tag keys a table only when the file
    has no tag line at all; and there is at most one table more than there
    are tag lines. *)
Theorem table_keys_come_from_tag_lines
    (lines : list string) (tables : dict DataFrame) :
  parse_sections lines = Ok tables →
  (∀ k, k ∈ tables.*1 →
        k = None ∨ ∃ t, t ∈ tag_lines lines ∧ k = Some (Py.strip BRACKETS t)) ∧
  (tag_lines lines ≠ [] → dict_get None tables = None) ∧
  length tables ≤ S (length (tag_lines lines)).
Proof.
  rewrite parse_sections_scan. unfold spec_parse. intros Hst. split_and!.
  - intros k Hk. destruct (store_keys _ _ _ k Hst Hk) as [Hin|Hin].
    + by apply elem_of_nil in Hin.
    + by apply scan_keys in Hin.
  - intros Htags. apply (store_none _ [] tables) in Hst; [done | | done].
    by apply scan_after_tag.
  - apply store_length in Hst.
    pose proof (scan_length tag_nonempty None lines []). simpl in Hst. lia.
Qed.

End ParsingMore.

(** ** What the program's steps do to the disk *)

Section DiskFacts.

Lemma keeps_entries_paths {A} (m : M A) : keeps_entries m → keeps_paths m.
Proof. intros Hm fs p [n Hn]. exists n. by apply Hm. Qed.

Lemma keeps_entries_ret {A} (a : A) : keeps_entries (mret a : M A).
Proof. by intros fs p n. Qed.

Lemma keeps_entries_bind {A B} (m : M A) (f : A → M B) :
  keeps_entries m → (∀ a, keeps_entries (f a)) → keeps_entries (m ≫= f).
Proof.
  intros Hm Hf fs p n Hp. unfold mbind, M_bind.
  specialize (Hm fs p n Hp).
  destruct (m fs) as [[a|e] fs1]; [by apply Hf | done].
Qed.

Lemma keeps_paths_bind {A B} (m : M A) (f : A → M B) :
  keeps_paths m → (∀ a, keeps_paths (f a)) → keeps_paths (m ≫= f).
Proof.
  intros Hm Hf fs p Hp. unfold mbind, M_bind.
  specialize (Hm fs p Hp).
  destruct (m fs) as [[a|e] fs1]; [by apply Hf | done].
Qed.

Lemma keeps_entries_for_each {A} (xs : list A) (body : A → M unit) :
  (∀ x, keeps_entries (body x)) → keeps_entries (for_each xs body).
Proof.
  intros Hbody. induction xs as [|x xs IH]; cbn [for_each].
  - apply keeps_entries_ret.
  - apply keeps_entries_bind; [apply Hbody | by intros _].
Qed.

Lemma keeps_paths_for_each {A} (xs : list A) (body : A → M unit) :
  (∀ x, keeps_paths (body x)) → keeps_paths (for_each xs body).
Proof.
  intros Hbody. induction xs as [|x xs IH]; cbn [for_each].
  - apply keeps_entries_paths, keeps_entries_ret.
  - apply keeps_paths_bind; [apply Hbody | by intros _].
Qed.

Lemma keeps_entries_mkdir (d : string) : keeps_entries (os.mkdir d).
Proof.
  intros fs p n Hp. unfold os.mkdir.
  destruct (fs !! d) as [x|] eqn:Hd; cbn [snd]; [done |].
  destruct (if bool_decide (os_path.dirname d = "") then Some Dir
            else fs !! os_path.dirname d) as [[c|]|]; cbn [snd]; try done.
  rewrite lookup_insert_ne; [done | congruence].
Qed.

Lemma keeps_entries_makedirs (d : string) : keeps_entries (os.makedirs d).
Proof.
  intros fs p n Hp. unfold os.makedirs.
  apply (keeps_entries_bind
           (for_each (os.to_make (os_path.parents d) fs) os.mkdir)
           (fun _ => os.mkdir d)); [| | done].
  - apply keeps_entries_for_each, keeps_entries_mkdir.
  - intros _. apply keeps_entries_mkdir.
Qed.

Lemma keeps_entries_ensure_dir (d : string) : keeps_entries (ensure_dir d).
Proof.
  unfold ensure_dir. apply keeps_entries_bind; [by intros fs p n |].
  intros []; [apply keeps_entries_ret | apply keeps_entries_makedirs].
Qed.

Lemma keeps_paths_open_write (p c : string) : keeps_paths (open_write p c).
Proof.
  intros fs q Hq. unfold open_write.
  destruct (writable p fs); cbn [snd]; [| done].
  destruct (decide (p = q)) as [->|Hne].
  - rewrite lookup_insert_eq. by eexists.
  - by rewrite lookup_insert_ne.
Qed.

Lemma keeps_entries_listdir (p : string) : keeps_entries (os.listdir p).
Proof.
  intros fs q n Hq. unfold os.listdir.
  by destruct (fs !! p) as [[c|]|].
Qed.

Lemma keeps_entries_open_read (p : string) : keeps_entries (open_read p).
Proof.
  intros fs q n Hq. unfold open_read.
  by destruct (fs !! p) as [[c|]|].
Qed.

Lemma mkdir_adds_dir (d : string) (fs : FS) (q : string) (n : node) :
  (os.mkdir d fs).2 !! q = Some n → fs !! q = Some n ∨ n = Dir.
Proof.
  unfold os.mkdir. destruct (fs !! d) as [x|] eqn:Hd; cbn [snd]; [by left |].
  destruct (if bool_decide (os_path.dirname d = "") then Some Dir
            else fs !! os_path.dirname d) as [[c|]|]; cbn [snd]; try by left.
  destruct (decide (d = q)) as [->|Hne].
  - rewrite lookup_insert_eq. intros [= <-]. by right.
  - rewrite lookup_insert_ne by done. by left.
Qed.

(** The directories [os.makedirs] makes are the only entries it adds. *)
Lemma makedirs_adds_dirs (d : string) (fs : FS) (q : string) (n : node) :
  (os.makedirs d fs).2 !! q = Some n → fs !! q = Some n ∨ n = Dir.
Proof.
  unfold os.makedirs, mbind, M_bind.
  assert (Hparents : ∀ ds disk,
             (for_each ds os.mkdir disk).2 !! q = Some n →
             disk !! q = Some n ∨ n = Dir).
  { induction ds as [|x ds IH]; intros disk; cbn [for_each]; [by left |].
    unfold mbind, M_bind.
    pose proof (mkdir_adds_dir x disk q) as Hx.
    destruct (os.mkdir x disk) as [[[]|e] disk1]; cbn [snd] in *.
    - intros [Hq|Hq]%IH; [by apply Hx | by right].
    - apply Hx. }
  specialize (Hparents (os.to_make (os_path.parents d) fs) fs).
  destruct (for_each (os.to_make (os_path.parents d) fs) os.mkdir fs)
    as [[[]|e] fs1]; cbn [snd] in *; [| done].
  intros [Hq|Hq]%mkdir_adds_dir; [by apply Hparents | by right].
Qed.

Lemma makedirs_ok (d : string) (fs : FS) :
  (os.makedirs d fs).1 = Ok tt → (os.makedirs d fs).2 !! d = Some Dir.
Proof.
  unfold os.makedirs, mbind, M_bind.
  destruct (for_each (os.to_make (os_path.parents d) fs) os.mkdir fs)
    as [[[]|e] fs1]; [| done].
  unfold os.mkdir. destruct (fs1 !! d) as [x|] eqn:Hd; cbn [fst snd]; [done |].
  destruct (if bool_decide (os_path.dirname d = "") then Some Dir
            else fs1 !! os_path.dirname d) as [[c|]|]; cbn [fst snd]; try done.
  intros _. apply lookup_insert_eq.
Qed.

(** X5.  [if not os.path.exists(p): os.makedirs(p)] leaves every existing
    entry as it is and adds directories only; when it succeeds the path
    exists, as a directory if it was missing; and a regular file in place of
    the directory goes unnoticed: the step succeeds and makes nothing. *)
Theorem ensure_dir_only_adds_directories (p : string) (fs : FS) :
  (∀ q n, fs !! q = Some n → (ensure_dir p fs).2 !! q = Some n) ∧
  (∀ q n, (ensure_dir p fs).2 !! q = Some n → fs !! q = Some n ∨ n = Dir) ∧
  ((ensure_dir p fs).1 = Ok tt → is_Some ((ensure_dir p fs).2 !! p)) ∧
  ((ensure_dir p fs).1 = Ok tt → fs !! p = None →
   (ensure_dir p fs).2 !! p = Some Dir) ∧
  (∀ c, fs !! p = Some (File c) → ensure_dir p fs = (Ok tt, fs)).
Proof.
  split_and!.
  - intros q n. apply keeps_entries_ensure_dir.
  - intros q n. unfold ensure_dir, mbind, M_bind, os.exists_.
    case_bool_decide; [by left | apply makedirs_adds_dirs].
  - unfold ensure_dir, mbind, M_bind, os.exists_.
    case_bool_decide as Hp; [done |].
    intros Hok%makedirs_ok. by eexists.
  - unfold ensure_dir, mbind, M_bind, os.exists_.
    case_bool_decide as Hp; [| intros Hok _; by apply makedirs_ok].
    intros _ Hnone. rewrite Hnone in Hp. by destruct Hp.
  - intros c Hc. unfold ensure_dir, mbind, M_bind, os.exists_.
    rewrite bool_decide_eq_true_2; [done | by eexists].
Qed.

Lemma for_each_app {A} (xs ys : list A) (body : A → M unit) (fs : FS) :
  for_each (xs ++ ys) body fs
  = match for_each xs body fs with
    | (Ok _, fs') => for_each ys body fs'
    | (Raise e, fs') => (Raise e, fs')
    end.
Proof.
  revert fs. induction xs as [|x xs IH]; intros fs; [done |].
  cbn [app for_each]. unfold mbind, M_bind.
  destruct (body x fs) as [[[]|e] fs1]; [apply IH | done].
Qed.

(** A loop whose every iteration succeeds without effect does nothing. *)
Lemma for_each_idle {A} (xs : list A) (body : A → M unit) (fs : FS) :
  Forall (fun x => body x fs = (Ok tt, fs)) xs →
  for_each xs body fs = (Ok tt, fs).
Proof.
  induction 1 as [|x xs Hx _ IH]; [done |].
  cbn [for_each]. unfold mbind, M_bind. by rewrite Hx.
Qed.

End DiskFacts.

(** ** Persistence of the tables (lines 126-148) and [SegmentTables.run] *)

Section PersistenceMore.
Context {DataFrame : Type} `{!Tabular DataFrame}.

(** [.txt] in a name whose stem has no dot occurs once, at the end. *)
Lemma replace_txt (new stem : string) :
  Py.char_in "."%char stem = false →
  Py.replace ".txt" new (stem +:+ ".txt") = stem +:+ new.
Proof.
  unfold Py.replace. induction stem as [|a stem IH]; intros Hdot.
  - rewrite !app_nil_s. cbn. by rewrite app_empty_r.
  - cbn [Py.char_in] in Hdot.
    destruct (decide ("."%char = a)) as [|Hne]; [done |].
    rewrite !app_cons_s. cbn [Py.replace_from Py.startswith].
    rewrite decide_False by done. by rewrite IH.
Qed.

(** The name of the file that holds the table of [key]. *)
Lemma table_path (output_dir stem : string) (key : option string) :
  Py.char_in "."%char stem = false →
  os_path.join output_dir
    (Py.replace ".txt" ("_" +:+ Py.format key +:+ ".tsv") (stem +:+ ".txt"))
  = os_path.join output_dir (stem +:+ "_" +:+ Py.format key +:+ ".tsv").
Proof. intros Hdot. by rewrite replace_txt. Qed.

(** X6.  The table of a key other than [Probes], read from a file
    [stem.txt] whose stem has no dot, is written to [stem_key.tsv] in the
    output directory ([stem_None.tsv] for the undefined tag) and nothing else
    changes; when that file cannot be created the error is raised and the
    disk is left as it is. *)
Theorem table_is_saved_under_its_key
    (output_dir stem : string) (key : option string) (df : DataFrame) (fs : FS) :
  key ≠ Some "Probes" →
  Py.char_in "."%char stem = false →
  save_table output_dir (stem +:+ ".txt") key df fs
  = match writable (os_path.join output_dir
                      (stem +:+ "_" +:+ Py.format key +:+ ".tsv")) fs with
    | Ok _ =>
        (Ok tt,
         <[os_path.join output_dir (stem +:+ "_" +:+ Py.format key +:+ ".tsv")
           := File (to_csv df)]> fs)
    | Raise e => (Raise e, fs)
    end.
Proof.
  intros Hkey Hdot. unfold save_table. rewrite table_path by done.
  unfold open_write. step_M. rewrite decide_False by done.
  by destruct (writable _ fs) as [[]|e].
Qed.

(** X7.  When the reduction of the Probes table raises, the tables stored
    before it and the Probes table itself are on disk, the reduced table and
    the tables stored after it are not written, and the error is the
    outcome. *)
Theorem failed_reduction_keeps_main_table
    (output_dir filename : string) (df : DataFrame) (e : exn)
    (before after : dict DataFrame) (fs fs1 : FS) :
  for_each before (fun kv => save_table output_dir filename kv.1 kv.2) fs
  = (Ok tt, fs1) →
  writable (os_path.join output_dir
              (Py.replace ".txt" "_Probes.tsv" filename)) fs1 = Ok tt →
  drop PROBES_DROPPED df = Raise e →
  for_each (before ++ (Some "Probes", df) :: after)
    (fun kv => save_table output_dir filename kv.1 kv.2) fs
  = (Raise e,
     <[os_path.join output_dir (Py.replace ".txt" "_Probes.tsv" filename)
       := File (to_csv df)]> fs1).
Proof.
  intros Hbefore Hw Hdrop. rewrite for_each_app, Hbefore.
  cbn [for_each fst snd]. unfold save_table, open_write. step_M.
  change ("_" +:+ Py.format (Some "Probes") +:+ ".tsv") with "_Probes.tsv".
  rewrite Hw. rewrite decide_True by done.
  by rewrite Hdrop.
Qed.

(** X8.  When the text file cannot be opened, or when any of its sections
    fails to parse, processing raises that error before the output directory
    is made: the disk is left exactly as it was. *)
Theorem failed_parse_writes_nothing
    (dataset_name file_path filename dir_name : string) (fs : FS) :
  (fs !! file_path = None →
   _process_text_file dataset_name file_path filename dir_name fs
   = (Raise (FileNotFoundError file_path), fs)) ∧
  (fs !! file_path = Some Dir →
   _process_text_file dataset_name file_path filename dir_name fs
   = (Raise (IsADirectoryError file_path), fs)) ∧
  (∀ content e,
      fs !! file_path = Some (File content) →
      parse_sections (Py.readlines content) = Raise e →
      _process_text_file dataset_name file_path filename dir_name fs
      = (Raise e, fs)).
Proof.
  unfold _process_text_file, open_read. step_M. split_and!.
  - by intros ->.
  - by intros ->.
  - by intros content e -> ->.
Qed.

Lemma keeps_paths_save_table (output_dir filename : string)
    (key : option string) (df : DataFrame) :
  keeps_paths (save_table output_dir filename key df).
Proof.
  unfold save_table. apply keeps_paths_bind; [apply keeps_paths_open_write |].
  intros _. case_decide; [| apply keeps_entries_paths, keeps_entries_ret].
  apply keeps_paths_bind; [by intros fs p | intros df'].
  apply keeps_paths_open_write.
Qed.

Lemma keeps_paths_process_text_file
    (dataset_name file_path filename dir_name : string) :
  keeps_paths (_process_text_file dataset_name file_path filename dir_name).
Proof.
  unfold _process_text_file, try_log_reraise.
  apply keeps_paths_bind; [apply keeps_entries_paths, keeps_entries_open_read |].
  intros content. apply keeps_paths_bind; [by intros fs p |].
  intros tables. apply keeps_paths_bind.
  - apply keeps_entries_paths, keeps_entries_ensure_dir.
  - intros _. apply keeps_paths_for_each. intros kv. apply keeps_paths_save_table.
Qed.

(** X9.  [SegmentTables.run] removes nothing: every path that exists before
    the run exists after it, whether the run succeeds or raises. *)
Theorem segmenter_removes_nothing
    (dataset_name extract_path p : string) (fs : FS) :
  is_Some (fs !! p) →
  is_Some ((segment_run dataset_name extract_path fs).2 !! p).
Proof.
  revert fs p. change (keeps_paths (segment_run dataset_name extract_path)).
  unfold segment_run.
  apply keeps_paths_bind; [apply keeps_entries_paths, keeps_entries_listdir |].
  intros dir_names. apply keeps_paths_for_each. intros dir_name.
  apply keeps_paths_bind; [by intros fs p |].
  intros []; [| apply keeps_entries_paths, keeps_entries_ret].
  apply keeps_paths_bind; [apply keeps_entries_paths, keeps_entries_listdir |].
  intros filenames. apply keeps_paths_for_each. intros filename.
  destruct (negb (Py.endswith ".txt" filename)).
  - apply keeps_entries_paths, keeps_entries_ret.
  - apply keeps_paths_process_text_file.
Qed.

(** X10.  [SegmentTables.run] looks only at names ending in [.txt] directly
    inside the immediate subdirectories of its input: when no such name
    exists (regular files of the input directory itself are not looked at),
    the run succeeds and leaves the disk as it is, without making any output
    directory. *)
Theorem segmenter_ignores_other_files
    (dataset_name extract_path : string) (fs : FS) (dir_names : list string) :
  os.listdir extract_path fs = (Ok dir_names, fs) →
  (∀ d filenames,
      d ∈ dir_names →
      os.listdir (os_path.join extract_path d) fs = (Ok filenames, fs) →
      Forall (fun f => Py.endswith ".txt" f = false) filenames) →
  segment_run dataset_name extract_path fs = (Ok tt, fs).
Proof.
  intros Hlist Hnames. unfold segment_run. step_M. rewrite Hlist.
  apply for_each_idle. apply Forall_forall. intros d Hd.
  unfold os.isdir. case_bool_decide as Hdir; [| done].
  assert (Hsub : ∃ filenames,
             os.listdir (os_path.join extract_path d) fs = (Ok filenames, fs)).
  { unfold os.listdir. rewrite Hdir. by eexists. }
  destruct Hsub as [filenames Hsub]. rewrite Hsub.
  apply for_each_idle. specialize (Hnames d filenames Hd Hsub).
  eapply Forall_impl; [exact Hnames |].
  intros f Hf. cbv beta. by rewrite Hf.
Qed.

End PersistenceMore.

(** ** [ExtractAndProcessData] and [DownloadData] *)

Section UnpackerMore.
Context `{!Collaborators}.

(** X11.  [_process_gzip_file] on a path that holds no regular file raises
    and leaves the disk as it is: nothing is created, and a directory whose
    name ends in [.gz] is not removed. *)
Theorem gzip_needs_a_regular_file (gz dir : string) (fs : FS) :
  (fs !! gz = None →
   _process_gzip_file gz dir fs = (Raise (FileNotFoundError gz), fs)) ∧
  (fs !! gz = Some Dir →
   _process_gzip_file gz dir fs = (Raise (IsADirectoryError gz), fs)).
Proof.
  unfold _process_gzip_file, try_finally, decompress, open_read, os.remove.
  step_M. split; intros Hgz; rewrite Hgz; cbn; by rewrite Hgz.
Qed.

Lemma endswith_gz_has_dot (item : string) :
  Py.endswith ".gz" item = true → os_path.rfind "." item ≠ None.
Proof.
  intros [stem ->]%endswith_split. rewrite rfind_app.
  by change (os_path.rfind "." ".gz") with (Some 0).
Qed.

(** X12.  For a member whose name does not end in [.gz] the loop only makes
    sure its directory exists: every entry of the disk, the member included,
    is left as it is.  When the name has no dot at all, the directory to
    make is the member's own path, so an extracted member gets no directory
    and nothing changes. *)
Theorem other_members_are_left_in_place
    (extract_path item : string) (fs : FS) :
  Py.endswith ".gz" item = false →
  process_member extract_path item fs
  = ensure_dir (item_dir extract_path item) fs ∧
  (∀ q n, fs !! q = Some n →
          (process_member extract_path item fs).2 !! q = Some n) ∧
  (os_path.rfind "." item = None →
   is_Some (fs !! item_path extract_path item) →
   process_member extract_path item fs = (Ok tt, fs)).
Proof.
  intros Hgz.
  assert (Hmember : process_member extract_path item fs
                    = ensure_dir (item_dir extract_path item) fs).
  { unfold process_member. step_M. rewrite Hgz.
    by destruct (ensure_dir _ fs) as [[[]|e] fs1]. }
  split_and!; [done | |].
  - intros q n. rewrite Hmember. apply keeps_entries_ensure_dir.
  - intros Hdot Hin. rewrite Hmember.
    unfold item_dir, os_path.splitext. rewrite Hdot. cbn [fst].
    unfold ensure_dir, os.exists_, item_path in *. step_M.
    by rewrite bool_decide_eq_true_2.
Qed.

Lemma keeps_paths_decompress (gz target : string) :
  keeps_paths (decompress gz target).
Proof.
  unfold decompress.
  apply keeps_paths_bind; [apply keeps_entries_paths, keeps_entries_open_read |].
  intros _. apply keeps_paths_bind; [apply keeps_paths_open_write |].
  intros _. apply keeps_paths_bind;
    [apply keeps_entries_paths, keeps_entries_open_read |].
  intros c. apply keeps_paths_bind; [apply keeps_paths_open_write |].
  intros _. by destruct (gunzip c).2; intros fs p.
Qed.

Lemma process_member_keeps (extract_path item p : string) (fs : FS) :
  (Py.endswith ".gz" item = true → p ≠ item_path extract_path item) →
  is_Some (fs !! p) →
  is_Some ((process_member extract_path item fs).2 !! p).
Proof.
  intros Hp Hin. unfold process_member. step_M.
  pose proof (keeps_entries_paths _ (keeps_entries_ensure_dir
                (item_dir extract_path item)) fs p Hin) as Hdir.
  destruct (ensure_dir (item_dir extract_path item) fs) as [[[]|e] fs0];
    cbn [snd] in Hdir; [| done].
  destruct (Py.endswith ".gz" item); [| done].
  unfold _process_gzip_file, try_finally, try_log_reraise.
  pose proof (keeps_paths_decompress (item_path extract_path item)
                (output_path (item_path extract_path item)
                   (item_dir extract_path item)) fs0 p Hdir) as Hdec.
  destruct (decompress _ _ fs0) as [r fs1]. cbn [snd] in Hdec.
  unfold os.remove.
  destruct (fs1 !! item_path extract_path item) as [[c|]|]; cbn [snd]; try done.
  rewrite lookup_delete_ne; [done |]. intros Heq. by apply Hp.
Qed.

(** X13.  The member loop removes nothing but compressed members: a path
    that is not the path of a member named [*.gz] and that exists before the
    loop exists after it, whether the loop completes or a member fails. *)
Theorem unpacker_removes_only_compressed_members
    (extract_path p : string) (items : list string) (fs : FS) :
  (∀ item, item ∈ items → Py.endswith ".gz" item = true →
           p ≠ item_path extract_path item) →
  is_Some (fs !! p) →
  is_Some ((for_each items (process_member extract_path) fs).2 !! p).
Proof.
  revert fs. induction items as [|item items IH]; intros fs Hp Hin; [done |].
  cbn [for_each]. step_M.
  assert (Hkeep : is_Some ((process_member extract_path item fs).2 !! p)).
  { apply process_member_keeps; [| done].
    apply Hp, list_elem_of_here. }
  destruct (process_member extract_path item fs) as [[[]|e] fs1];
    cbn [snd] in *; [| done].
  apply IH; [| done].
  intros item' Hitem'. apply Hp. by apply list_elem_of_further.
Qed.

(** X14.  Once the extraction directory is in place and the archive is
    still a regular file after the reader is done, the outcome of the reader
    decides the stage: if it raised, the stage raises the same error with
    the archive deleted and no member processed; if it returned the member
    names, the members are processed in order on the disk without the
    archive. *)
Theorem reader_outcome_decides_the_stage
    (dataset_name tar_path c : string) (fs fs0 fs1 : FS)
    (r : result (list string)) :
  ensure_dir (os_path.join "extracted" dataset_name) fs = (Ok tt, fs0) →
  tar_extract tar_path (os_path.join "extracted" dataset_name) fs0 = (r, fs1) →
  fs1 !! tar_path = Some (File c) →
  extract_run dataset_name tar_path fs
  = match r with
    | Ok file_names =>
        for_each file_names
          (process_member (os_path.join "extracted" dataset_name))
          (delete tar_path fs1)
    | Raise e => (Raise e, delete tar_path fs1)
    end.
Proof.
  intros Hdir Hread Hfile. unfold extract_run. step_M. rewrite Hdir.
  unfold extract_archive, try_finally, os.remove. step_M.
  rewrite Hread, Hfile. by destruct r.
Qed.

(** X15.  When the extraction directory cannot be made, the stage raises
    before the archive is opened: the reader is not called and the archive is
    not removed. *)
Theorem archive_kept_when_directory_fails
    (dataset_name tar_path : string) (fs fs' : FS) (e : exn) :
  ensure_dir (os_path.join "extracted" dataset_name) fs = (Raise e, fs') →
  extract_run dataset_name tar_path fs = (Raise e, fs') ∧
  (∀ n, fs !! tar_path = Some n → fs' !! tar_path = Some n).
Proof.
  intros Hdir. split.
  - unfold extract_run. step_M. by rewrite Hdir.
  - intros n Hn.
    pose proof (keeps_entries_ensure_dir
                  (os_path.join "extracted" dataset_name) fs tar_path n Hn) as Hk.
    by rewrite Hdir in Hk.
Qed.

(** X16.  [DownloadData.run] makes the [data] directory when nothing is at
    that path and then hands over to the transport, with the declared output
    path as destination; the outcome and the disk of the run are those of
    the transport.  A regular file named [data] goes unnoticed. *)
Theorem download_hands_over_to_transport (dataset_name : string) (fs : FS) :
  download_run dataset_name fs
  = wget_download
      ("https://www.ncbi.nlm.nih.gov/geo/download/?acc="
         +:+ dataset_name +:+ "&format=file")
      (output DownloadData dataset_name)
      (match fs !! "data" with
       | None => <["data" := Dir]> fs
       | Some _ => fs
       end).
Proof.
  unfold download_run, ensure_dir, os.exists_, try_log_reraise. step_M.
  destruct (fs !! "data") as [n|] eqn:Hdata.
  - rewrite bool_decide_eq_true_2 by (by eexists).
    by destruct (wget_download _ _ fs) as [[[]|e] fs1].
  - rewrite bool_decide_eq_false_2 by (by intros [? ?]).
    unfold os.makedirs. change (os_path.parents "data") with (@nil string).
    cbn [os.to_make for_each]. step_M. unfold os.mkdir. rewrite Hdata.
    change (os_path.dirname "data") with "". cbn.
    rewrite bool_decide_eq_true_2 by done.
    by destruct (wget_download _ _ _) as [[[]|e] fs1].
Qed.

(** X20.  A compressed member is consumed once: after [_process_gzip_file]
    has run on a regular file, whatever its outcome, running it again on the
    same path raises [FileNotFoundError] and changes nothing. *)
Theorem gzip_member_is_consumed_once (gz dir c : string) (fs : FS) :
  fs !! gz = Some (File c) →
  _process_gzip_file gz dir (_process_gzip_file gz dir fs).2
  = (Raise (FileNotFoundError gz), (_process_gzip_file gz dir fs).2).
Proof.
  intros Hgz. rewrite (process_gzip_file_consumes gz dir c fs Hgz).
  cbn [snd].
  assert (Hgone : delete gz (decompress gz (output_path gz dir) fs).2 !! gz = None)
    by apply lookup_delete_eq.
  revert Hgone. generalize (delete gz (decompress gz (output_path gz dir) fs).2).
  intros fs' Hgone.
  unfold _process_gzip_file, try_finally, decompress, open_read, os.remove.
  step_M. rewrite Hgone. cbn. by rewrite Hgone.
Qed.

End UnpackerMore.

(** ** The declared outputs (lines 16-17, 84-85 and 151-152) *)

Section OutputFacts.








End OutputFacts.

(** ** More on whole files *)

Section WholeFiles.
Context {DataFrame : Type} `{!Tabular DataFrame}.

(** Two continuations that scan alike from every state scan alike after any
    common beginning. *)
Lemma scan_prefix (is_set : option string → bool)
    (before l1 l2 : list string) :
  (∀ tag buffer, spec_scan is_set tag buffer l1 = spec_scan is_set tag buffer l2) →
  ∀ tag buffer,
    spec_scan is_set tag buffer (before ++ l1)
    = spec_scan is_set tag buffer (before ++ l2).
Proof.
  intros Hsame. induction before as [|l before IH]; intros tag buffer.
  - apply Hsame.
  - cbn [app spec_scan]. destruct (Py.startswith "[" l); [| apply IH].
    destruct (is_set tag); [f_equal |]; apply IH.
Qed.

(** X18.  A tag line whose tag is empty starts no table of its own when
    another tag line follows: the file is parsed as if the later tag line
    stood in its place, so the data lines between the two are stored with
    the later section. *)
Theorem empty_tag_merges_into_next_section
    (before body rest : list string) (t0 t : string) :
  is_tag_line t0 = true → Py.strip BRACKETS t0 = "" →
  data_only body → is_tag_line t = true →
  parse_sections (before ++ t0 :: body ++ t :: rest)
  = parse_sections (before ++ t :: body ++ rest).
Proof.
  intros Ht0 Hempty Hbody Ht. rewrite !parse_sections_scan. unfold spec_parse.
  f_equal. apply scan_prefix. intros tag buffer.
  rewrite !scan_tag by done. rewrite Hempty.
  destruct (tag_nonempty tag).
  - f_equal. rewrite !scan_data by done. rewrite scan_tag by done. done.
  - rewrite !scan_data by done. rewrite scan_tag by done. done.
Qed.

(** X19.  A text file [stem.txt] without any tag line, whose stem has no
    dot and whose content the parser accepts, is saved as one table in
    [stem_None.tsv] of its output directory, the undefined tag being
    formatted as [None]; nothing else is written. *)
Theorem untagged_file_is_saved_as_None
    (dataset_name file_path stem dir_name content : string)
    (df : DataFrame) (fs fs0 : FS) :
  fs !! file_path = Some (File content) →
  data_only (Py.readlines content) →
  read_csv content = Ok df →
  Py.char_in "."%char stem = false →
  ensure_dir (os_path.join (os_path.join "processed" dataset_name) dir_name) fs
  = (Ok tt, fs0) →
  writable (os_path.join (os_path.join (os_path.join "processed" dataset_name)
                            dir_name) (stem +:+ "_None.tsv")) fs0 = Ok tt →
  _process_text_file dataset_name file_path (stem +:+ ".txt") dir_name fs
  = (Ok tt,
     <[os_path.join (os_path.join (os_path.join "processed" dataset_name)
                       dir_name) (stem +:+ "_None.tsv")
       := File (to_csv df)]> fs0).
Proof.
  intros Hfile Hdata Hdf Hdot Hdir Hw.
  unfold _process_text_file, open_read. step_M. rewrite Hfile.
  rewrite parse_sections_scan. unfold spec_parse.
  rewrite scan_data_only by done. cbn [spec_store app].
  unfold spec_finalize. cbn [fst snd]. rewrite concat_readlines, Hdf.
  step_result. cbn [dict_set]. rewrite Hdir. cbn [for_each fst snd]. step_M.
  unfold save_table. rewrite table_path by done.
  unfold open_write. step_M.
  change ("_" +:+ Py.format None +:+ ".tsv") with "_None.tsv".
  rewrite Hw. by rewrite decide_False.
Qed.

End WholeFiles.

(** ** The further properties at concrete inputs *)

Section MoreWitnesses.
Import pandas.

Lemma sections_become_tables_witness :
  section_lines
    [(Py.lit "[Header]\n", [Py.lit "a\tb\n"; Py.lit "1\t2\n"]);
     (Py.lit "[Probes]\n",
      [Py.lit "ID\tDefinition\tProbe_Sequence\n"; Py.lit "1\tfoo\tACGT\n"])]
  = Py.readlines Files.synthetic ∧
  parse_sections (Py.readlines Files.synthetic)
  = Ok [(Some "Header", {| columns := ["a"; "b"]; rows := [["1"; "2"]] |});
        (Some "Probes",
         {| columns := ["ID"; "Definition"; "Probe_Sequence"];
            rows := [["1"; "foo"; "ACGT"]] |})].
Proof.
  split; [reflexivity |].
  refine (sections_become_tables (DataFrame := DataFrame)
            [(Py.lit "[Header]\n", [Py.lit "a\tb\n"; Py.lit "1\t2\n"]);
             (Py.lit "[Probes]\n",
              [Py.lit "ID\tDefinition\tProbe_Sequence\n"; Py.lit "1\tfoo\tACGT\n"])]
            [{| columns := ["a"; "b"]; rows := [["1"; "2"]] |};
             {| columns := ["ID"; "Definition"; "Probe_Sequence"];
                rows := [["1"; "foo"; "ACGT"]] |}]
            _ _ _ _).
  - discriminate.
  - repeat constructor; vm_compute; try discriminate; repeat constructor.
  - apply (bool_decide_unpack _). vm_compute. exact I.
  - repeat constructor.
Defined.

Lemma leading_lines_join_first_section_witness :
  data_only [Py.lit "a\tb\n"] ∧
  parse_sections (DataFrame := DataFrame)
    ([Py.lit "a\tb\n"] ++ Py.lit "[X]\n" :: [Py.lit "1\t2\n"])
  = parse_sections (Py.lit "[X]\n" :: [Py.lit "a\tb\n"] ++ [Py.lit "1\t2\n"]).
Proof.
  assert (Hdata : data_only [Py.lit "a\tb\n"])
    by (vm_compute; repeat constructor).
  split; [exact Hdata |].
  exact (leading_lines_join_first_section (DataFrame := DataFrame)
           [Py.lit "a\tb\n"] [Py.lit "1\t2\n"] (Py.lit "[X]\n") Hdata eq_refl).
Defined.

Lemma table_keys_come_from_tag_lines_witness :
  tag_lines (Py.readlines Files.synthetic) ≠ [] ∧
  dict_get None
    [(Some "Header", {| columns := ["a"; "b"]; rows := [["1"; "2"]] |});
     (Some "Probes",
      {| columns := ["ID"; "Definition"; "Probe_Sequence"];
         rows := [["1"; "foo"; "ACGT"]] |})] = None.
Proof.
  assert (Htags : tag_lines (Py.readlines Files.synthetic) ≠ [])
    by (vm_compute; discriminate).
  split; [exact Htags |].
  exact (proj1 (proj2 (table_keys_come_from_tag_lines (DataFrame := DataFrame)
                         (Py.readlines Files.synthetic) _ eq_refl)) Htags).
Defined.

Lemma table_is_saved_under_its_key_witness :
  save_table Disks.output_dir (String.append "GPL10558" ".txt") (Some "Header")
    {| columns := ["a"; "b"]; rows := [["1"; "2"]] |} Disks.ready
  = (Ok tt,
     <["processed/GSE68849/GPL10558/GPL10558_Header.tsv"
       := File (Py.lit "a\tb\n1\t2\n")]> Disks.ready).
Proof.
  rewrite (table_is_saved_under_its_key (DataFrame := DataFrame)
             Disks.output_dir "GPL10558" (Some "Header")
             {| columns := ["a"; "b"]; rows := [["1"; "2"]] |} Disks.ready
             ltac:(discriminate) eq_refl).
  reflexivity.
Defined.

Lemma failed_reduction_keeps_main_table_witness :
  for_each
    ([(Some "Header", {| columns := ["a"; "b"]; rows := [["1"; "2"]] |})]
       ++ (Some "Probes", {| columns := ["ID"; "Definition"]; rows := [["1"; "foo"]] |})
       :: [(Some "Controls", {| columns := ["c"]; rows := [] |})])
    (fun kv => save_table Disks.output_dir Files.filename kv.1 kv.2) Disks.ready
  = (Raise (KeyError ["Ontology_Component"; "Ontology_Process";
                      "Ontology_Function"; "Synonyms"; "Obsolete_Probe_Id";
                      "Probe_Sequence"]),
     <["processed/GSE68849/GPL10558/GPL10558_Probes.tsv"
       := File (Py.lit "ID\tDefinition\n1\tfoo\n")]>
       (<["processed/GSE68849/GPL10558/GPL10558_Header.tsv"
          := File (Py.lit "a\tb\n1\t2\n")]> Disks.ready)).
Proof.
  refine (failed_reduction_keeps_main_table (DataFrame := DataFrame)
            Disks.output_dir Files.filename
            {| columns := ["ID"; "Definition"]; rows := [["1"; "foo"]] |}
            (KeyError ["Ontology_Component"; "Ontology_Process";
                       "Ontology_Function"; "Synonyms"; "Obsolete_Probe_Id";
                       "Probe_Sequence"])
            [(Some "Header", {| columns := ["a"; "b"]; rows := [["1"; "2"]] |})]
            [(Some "Controls", {| columns := ["c"]; rows := [] |})]
            Disks.ready
            (<["processed/GSE68849/GPL10558/GPL10558_Header.tsv"
               := File (Py.lit "a\tb\n1\t2\n")]> Disks.ready)
            _ _ _).
  - vm_compute. reflexivity.
  - vm_compute. reflexivity.
  - vm_compute. reflexivity.
Defined.

Lemma segmenter_removes_nothing_witness :
  is_Some (Files.disk Files.synthetic !! Files.file_path) ∧
  is_Some ((segment_run (DataFrame := DataFrame) Files.dataset_name
              "extracted/GSE68849" (Files.disk Files.synthetic)).2
             !! Files.file_path).
Proof.
  assert (Hin : is_Some (Files.disk Files.synthetic !! Files.file_path))
    by (eexists; vm_compute; reflexivity).
  split; [exact Hin |].
  exact (segmenter_removes_nothing (DataFrame := DataFrame) Files.dataset_name
           "extracted/GSE68849" Files.file_path (Files.disk Files.synthetic) Hin).
Defined.

Lemma segmenter_ignores_other_files_witness :
  os.listdir "extracted/GSE68849" Disks.other_files
  = (Ok ["GSM1"; "readme.md"], Disks.other_files) ∧
  segment_run (DataFrame := DataFrame) Files.dataset_name "extracted/GSE68849"
    Disks.other_files
  = (Ok tt, Disks.other_files).
Proof.
  assert (Hlist : os.listdir "extracted/GSE68849" Disks.other_files
                  = (Ok ["GSM1"; "readme.md"], Disks.other_files))
    by (vm_compute; reflexivity).
  split; [exact Hlist |].
  refine (segmenter_ignores_other_files (DataFrame := DataFrame)
            Files.dataset_name "extracted/GSE68849" Disks.other_files
            ["GSM1"; "readme.md"] Hlist _).
  intros d filenames Hd Hsub.
  apply elem_of_cons in Hd as [->|Hd].
  - vm_compute in Hsub. injection Hsub as <-. repeat constructor.
  - apply list_elem_of_singleton in Hd as ->.
    vm_compute in Hsub. discriminate Hsub.
Defined.

Lemma other_members_are_left_in_place_witness :
  Py.endswith ".gz" "README" = false ∧
  process_member "extracted/GSE68849" "README"
    {[ "extracted/GSE68849" := Dir; "extracted/GSE68849/README" := File "x" ]}
  = (Ok tt,
     {[ "extracted/GSE68849" := Dir; "extracted/GSE68849/README" := File "x" ]}).
Proof.
  split; [reflexivity |].
  refine (proj2 (proj2 (other_members_are_left_in_place
                          (H := Sample.collaborators) "extracted/GSE68849" "README"
                          {[ "extracted/GSE68849" := Dir;
                             "extracted/GSE68849/README" := File "x" ]}
                          eq_refl)) eq_refl _).
  eexists. vm_compute. reflexivity.
Defined.

Lemma unpacker_removes_only_compressed_members_witness :
  is_Some (Sample.unpacked !! "data") ∧
  is_Some ((for_each [Sample.member] (process_member Sample.extract_path)
              Sample.unpacked).2 !! "data").
Proof.
  assert (Hin : is_Some (Sample.unpacked !! "data"))
    by (eexists; vm_compute; reflexivity).
  split; [exact Hin |].
  refine (unpacker_removes_only_compressed_members (H := Sample.collaborators)
            Sample.extract_path "data" [Sample.member] Sample.unpacked _ Hin).
  intros item Hitem _. apply list_elem_of_singleton in Hitem as ->.
  vm_compute. discriminate.
Defined.

Lemma reader_outcome_decides_the_stage_witness :
  extract_run Files.dataset_name Sample.tar_path (Sample.disk "corrupt")
  = (Raise (OtherError "ReadError"),
     delete Sample.tar_path (Sample.disk "corrupt")).
Proof.
  refine (reader_outcome_decides_the_stage (H := Sample.collaborators)
            Files.dataset_name Sample.tar_path "corrupt"
            (Sample.disk "corrupt") (Sample.disk "corrupt") (Sample.disk "corrupt")
            (Raise (OtherError "ReadError")) _ _ _).
  - vm_compute. reflexivity.
  - vm_compute. reflexivity.
  - vm_compute. reflexivity.
Defined.

Lemma archive_kept_when_directory_fails_witness :
  extract_run Files.dataset_name Sample.tar_path Disks.blocked
  = (Raise (NotADirectoryError "extracted/GSE68849"), Disks.blocked) ∧
  Disks.blocked !! Sample.tar_path = Some (File Sample.archive).
Proof.
  split; [| vm_compute; reflexivity].
  refine (proj1 (archive_kept_when_directory_fails (H := Sample.collaborators)
                   Files.dataset_name Sample.tar_path Disks.blocked Disks.blocked
                   (NotADirectoryError "extracted/GSE68849") _)).
  vm_compute. reflexivity.
Defined.


Lemma empty_tag_merges_into_next_section_witness :
  Py.strip BRACKETS (Py.lit "[]\n") = "" ∧
  parse_sections (DataFrame := DataFrame)
    ([] ++ Py.lit "[]\n" :: [Py.lit "a\tb\n"] ++ Py.lit "[X]\n" :: [Py.lit "c\td\n"])
  = parse_sections ([] ++ Py.lit "[X]\n" :: [Py.lit "a\tb\n"] ++ [Py.lit "c\td\n"]).
Proof.
  split; [reflexivity |].
  refine (empty_tag_merges_into_next_section (DataFrame := DataFrame)
            [] [Py.lit "a\tb\n"] [Py.lit "c\td\n"] (Py.lit "[]\n") (Py.lit "[X]\n")
            eq_refl eq_refl _ eq_refl).
  vm_compute. repeat constructor.
Defined.

Lemma untagged_file_is_saved_as_None_witness :
  _process_text_file Files.dataset_name Files.file_path
    (String.append "GPL10558" ".txt") Files.dir_name Disks.untagged
  = (Ok tt,
     <["processed/GSE68849/GPL10558/GPL10558_None.tsv"
       := File (Py.lit "a\tb\n1\t2\n")]>
       (<["processed/GSE68849/GPL10558" := Dir]>
          (<["processed/GSE68849" := Dir]>
             (<["processed" := Dir]> Disks.untagged)))).
Proof.
  refine (untagged_file_is_saved_as_None (DataFrame := DataFrame)
            Files.dataset_name Files.file_path "GPL10558" Files.dir_name
            Files.plain {| columns := ["a"; "b"]; rows := [["1"; "2"]] |}
            Disks.untagged
            (<["processed/GSE68849/GPL10558" := Dir]>
               (<["processed/GSE68849" := Dir]>
                  (<["processed" := Dir]> Disks.untagged)))
            _ _ eq_refl eq_refl _ _).
  - vm_compute. reflexivity.
  - vm_compute. repeat constructor.
  - vm_compute. reflexivity.
  - vm_compute. reflexivity.
Defined.

Lemma gzip_member_is_consumed_once_witness :
  Sample.unpacked !! item_path Sample.extract_path Sample.member
  = Some (File Sample.archive) ∧
  _process_gzip_file (item_path Sample.extract_path Sample.member)
    "extracted/GSE68849/GSM1.txt"
    (_process_gzip_file (item_path Sample.extract_path Sample.member)
       "extracted/GSE68849/GSM1.txt" Sample.unpacked).2
  = (Raise (FileNotFoundError (item_path Sample.extract_path Sample.member)),
     (_process_gzip_file (item_path Sample.extract_path Sample.member)
        "extracted/GSE68849/GSM1.txt" Sample.unpacked).2).
Proof.
  assert (Hfile : Sample.unpacked !! item_path Sample.extract_path Sample.member
                  = Some (File Sample.archive)) by (vm_compute; reflexivity).
  split; [exact Hfile |].
  exact (gzip_member_is_consumed_once (H := Sample.collaborators)
           (item_path Sample.extract_path Sample.member)
           "extracted/GSE68849/GSM1.txt" Sample.archive Sample.unpacked Hfile).
Defined.

End MoreWitnesses.
